(** * Calendar-aware aggregation of harvest-timetracking

    A shallow embedding of [cmd/timetracking/api.go]: the configuration
    and its validation, the backward shift onto workdays, the collector
    [GetRecentDays], the grouped entry point [GetRecentDaysGrouped] and
    the assignment lookup [GetAssignmentsByName].

    Go values are modelled as follows.
    - [time.Time] is the day number of its calendar date (days since
      1970-01-01, proleptic Gregorian).  The code only formats with
      date layouts, asks for the weekday and adds whole days, so the
      time of day and the location are not part of the model.
    - [int] is [Z]; [map[K]struct{}] is [gset K]; slices are lists (the
      nil slice is the empty list); a pointer that may be nil is an
      [option].
    - a loop that the source leaves unbounded takes a fuel argument and
      answers [None] / [OutOfFuel] when the fuel is spent. *)

From Stdlib Require Import ZArith Lia Bool List Ascii String Sorted.
From stdpp Require Import gmap strings list sets sorting.

Local Open Scope Z_scope.

Set Warnings "-clear-no-such-hyp".

(** ** Go's [time] package, as far as the program uses it *)

Module GoTime.

(** [time.Weekday]: Sunday = 0 ... Saturday = 6. *)
Inductive Weekday :=
| Sunday | Monday | Tuesday | Wednesday | Thursday | Friday | Saturday.

Definition weekday_to_Z (w : Weekday) : Z :=
  match w with
  | Sunday => 0 | Monday => 1 | Tuesday => 2 | Wednesday => 3
  | Thursday => 4 | Friday => 5 | Saturday => 6
  end.

Definition weekday_of_Z (z : Z) : Weekday :=
  match z with
  | 0 => Sunday | 1 => Monday | 2 => Tuesday | 3 => Wednesday
  | 4 => Thursday | 5 => Friday | _ => Saturday
  end.

(** [Weekday.String]. *)
Definition weekday_String (w : Weekday) : string :=
  match w with
  | Sunday => "Sunday" | Monday => "Monday" | Tuesday => "Tuesday"
  | Wednesday => "Wednesday" | Thursday => "Thursday"
  | Friday => "Friday" | Saturday => "Saturday"
  end.

Definition all_weekdays : list Weekday :=
  [Sunday; Monday; Tuesday; Wednesday; Thursday; Friday; Saturday].

(** A [time.Time], reduced to the day number of its date. *)
Definition Time := Z.

(** Days of one 400-year era of the Gregorian calendar. *)
Definition era_days : Z := 146097.

(** Day number of 0000-03-01, the start of an era, counted from the
    epoch 1970-01-01. *)
Definition epoch_shift : Z := 719468.

(** Year of the era, month and day of a day of the era (years start
    in March here). *)
Definition civil_of_doe (doe : Z) : Z * Z * Z :=
  let yoe := (doe - doe / 1460 + doe / 36524 - doe / 146096) / 365 in
  let doy := doe - (365 * yoe + yoe / 4 - yoe / 100) in
  let mp := (5 * doy + 2) / 153 in
  let d := doy - (153 * mp + 2) / 5 + 1 in
  let m := if mp <? 10 then mp + 3 else mp - 9 in
  (yoe, m, d).

(** [Time.Date]: year, month and day of a day number. *)
Definition Date_of (t : Time) : Z * Z * Z :=
  let z := t + epoch_shift in
  let era := z / era_days in
  let doe := z mod era_days in
  let '(yoe, m, d) := civil_of_doe doe in
  (yoe + era * 400 + (if m <=? 2 then 1 else 0), m, d).

(** Day of the era of a March-based year of the era, month and day. *)
Definition doe_of_civil (yoe m d : Z) : Z :=
  let mp := if 2 <? m then m - 3 else m + 9 in
  let doy := (153 * mp + 2) / 5 + d - 1 in
  yoe * 365 + yoe / 4 - yoe / 100 + doy.

(** Day number of a date whose month is in 1..12; the day may lie
    outside the month and then counts on into the neighbours. *)
Definition days_from_civil (y m d : Z) : Time :=
  let y' := if m <=? 2 then y - 1 else y in
  let era := y' / 400 in
  let yoe := y' mod 400 in
  era * era_days + doe_of_civil yoe m d - epoch_shift.

(** [time.Date(y, m, d, ...)]: months outside 1..12 carry into the
    year, days outside the month carry into the months. *)
Definition Date (y m d : Z) : Time :=
  let m0 := m - 1 in
  days_from_civil (y + m0 / 12) (m0 mod 12 + 1) d.

(** [Time.AddDate]: add to the civil fields and normalise. *)
Definition AddDate (t : Time) (years months days : Z) : Time :=
  let '(y, m, d) := Date_of t in
  Date (y + years) (m + months) (d + days).

(** [Time.Weekday]; 1970-01-01 was a Thursday. *)
Definition Weekday_of (t : Time) : Weekday :=
  weekday_of_Z ((t + 4) mod 7).

(** [Time.ISOWeek]: the year and week of the Thursday of the week of
    [t], weeks starting on Monday. *)
Definition ISOWeek (t : Time) : Z * Z :=
  let d := weekday_to_Z Thursday - weekday_to_Z (Weekday_of t) in
  let d := if d =? 4 then -3 else d in
  let t' := t + d in
  let '(year, _, _) := Date_of t' in
  let yday := t' - days_from_civil year 1 1 in
  (year, yday / 7 + 1).

(** *** Formatting *)

Definition digit (n : Z) : ascii :=
  match n with
  | 0 => "0" | 1 => "1" | 2 => "2" | 3 => "3" | 4 => "4"
  | 5 => "5" | 6 => "6" | 7 => "7" | 8 => "8" | _ => "9"
  end%char.

(** The [w] low decimal digits of [u], most significant first. *)
Fixpoint digits_w (w : nat) (u : Z) : list ascii :=
  match w with
  | O => []
  | S w' => digits_w w' (u / 10) ++ [digit (u mod 10)]
  end.

(** [for u2 := u; u2 > 0; u2 /= 10 { n++ }] *)
Fixpoint count_digits (fuel : nat) (u : Z) : nat :=
  match fuel with
  | O => O
  | S f => if 0 <? u then S (count_digits f (u / 10)) else O
  end.

Definition ndigits (u : Z) : nat :=
  if u =? 0 then 1%nat
  else count_digits (S (Z.to_nat (Z.log2 u))) u.

(** [appendInt]: the decimal form of [x], a minus sign first when it
    is negative, zero-padded to [width] digits. *)
Definition appendInt (x : Z) (width : nat) : list ascii :=
  let u := Z.abs x in
  (if x <? 0 then ["-"%char] else [])
    ++ digits_w (Nat.max width (ndigits u)) u.

(** A layout string, cut into the chunks [nextStdChunk] finds in it.
    The program uses the reference-time fields "2006", "01" and "02"
    and literal text between them. *)
Inductive chunk :=
| stdLongYear | stdZeroMonth | stdZeroDay
| literal (s : list ascii).

Definition Layout := list chunk.

Definition format_chunk (ymd : Z * Z * Z) (c : chunk) : list ascii :=
  let '(y, m, d) := ymd in
  match c with
  | stdLongYear => appendInt y 4
  | stdZeroMonth => appendInt m 2
  | stdZeroDay => appendInt d 2
  | literal s => s
  end.

Definition format_chunks (ymd : Z * Z * Z) (layout : Layout)
  : list ascii :=
  concat (map (format_chunk ymd) layout).

(** [Time.Format]. *)
Definition Format (t : Time) (layout : Layout) : string :=
  string_of_list_ascii (format_chunks (Date_of t) layout).

(** *** Parsing *)

Definition isDigit (a : ascii) : bool :=
  let n := N_of_ascii a in ((48 <=? n) && (n <=? 57))%N.

Definition digit_val (a : ascii) : Z := Z.of_N (N_of_ascii a) - 48.

Fixpoint skip (value prefix : list ascii) : option (list ascii) :=
  match prefix with
  | [] => Some value
  | p :: prefix' =>
      match value with
      | [] => None
      | v :: value' =>
          if Ascii.eqb v p then skip value' prefix' else None
      end
  end.

Definition isLeap (year : Z) : bool :=
  (year mod 4 =? 0) && (negb (year mod 100 =? 0) || (year mod 400 =? 0)).

Definition daysIn (m year : Z) : Z :=
  match m with
  | 2 => if isLeap year then 29 else 28
  | 4 | 6 | 9 | 11 => 30
  | _ => 31
  end.

(** The loop of [Parse] over the chunks of the layout; the fields
    found so far are threaded through.  [None] is a parse error. *)
Fixpoint parse_chunks (layout : Layout) (value : list ascii)
         (year month day : Z) : option (Z * Z * Z) :=
  match layout with
  | [] =>
      match value with
      | [] => Some (year, month, day)
      | _ => None
      end
  | stdLongYear :: rest =>
      match value with
      | a :: b :: c :: e :: value' =>
          if isDigit a && isDigit b && isDigit c && isDigit e then
            parse_chunks rest value'
              (1000 * digit_val a + 100 * digit_val b
               + 10 * digit_val c + digit_val e) month day
          else None
      | _ => None
      end
  | stdZeroMonth :: rest =>
      match value with
      | a :: b :: value' =>
          if isDigit a && isDigit b then
            let m := 10 * digit_val a + digit_val b in
            if (m <=? 0) || (12 <? m) then None
            else parse_chunks rest value' year m day
          else None
      | _ => None
      end
  | stdZeroDay :: rest =>
      match value with
      | a :: b :: value' =>
          if isDigit a && isDigit b then
            parse_chunks rest value' year month
              (10 * digit_val a + digit_val b)
          else None
      | _ => None
      end
  | literal s :: rest =>
      match skip value s with
      | Some value' => parse_chunks rest value' year month day
      | None => None
      end
  end.

(** [time.Parse]: fields the layout does not mention default to year
    0, January, the 1st; the day is checked against the month last. *)
Definition Parse (layout : Layout) (value : string) : option Time :=
  match parse_chunks layout (list_ascii_of_string value) 0 1 1 with
  | Some (year, month, day) =>
      if (day <? 1) || (daysIn month year <? day) then None
      else Some (Date year month day)
  | None => None
  end.

End GoTime.

(** ** [strings.ToLower] and [strconv.Atoi] *)

Module GoStrings.

(** Upper-case ASCII letters are mapped to lower case; every other
    byte is left as it is (Go also maps upper-case letters outside
    ASCII, which the model does not follow). *)
Definition lower_ascii (a : ascii) : ascii :=
  let n := N_of_ascii a in
  if ((65 <=? n) && (n <=? 90))%N then ascii_of_N (n + 32) else a.

Fixpoint ToLower (s : string) : string :=
  match s with
  | EmptyString => EmptyString
  | String a s' => String (lower_ascii a) (ToLower s')
  end.

Fixpoint leadingInt (s : list ascii) (acc : Z) : option Z :=
  match s with
  | [] => Some acc
  | a :: s' =>
      if GoTime.isDigit a then leadingInt s' (10 * acc + GoTime.digit_val a)
      else None
  end.

(** [strconv.Atoi]: an optional sign, then one or more decimal
    digits, the value within the range of a 64-bit [int]. *)
Definition Atoi (s : string) : option Z :=
  let cs := list_ascii_of_string s in
  let '(neg, ds) :=
    match cs with
    | "-"%char :: ds => (true, ds)
    | "+"%char :: ds => (false, ds)
    | _ => (false, cs)
    end in
  match ds with
  | [] => None
  | _ =>
      match leadingInt ds 0 with
      | Some n =>
          let x := if neg then - n else n in
          if (- 2 ^ 63 <=? x) && (x <? 2 ^ 63) then Some x else None
      | None => None
      end
  end.

End GoStrings.

Import GoTime GoStrings.

Global Instance Weekday_eq_dec : EqDecision Weekday.
Proof. solve_decision. Defined.

Global Instance Weekday_countable : Countable Weekday :=
  inj_countable' weekday_to_Z weekday_of_Z
    (fun w => match w with
              | Sunday | Monday | Tuesday | Wednesday
              | Thursday | Friday | Saturday => eq_refl
              end).

(** ** Errors and abnormal ends *)

(** The [error] values the program makes or passes on. *)
Inductive error :=
| ErrParse (value : string)            (* from time.Parse *)
| ErrInvalidWeekday (v : string)       (* "Invalid weekday '%s'" *)
| ErrEveryDayOff                       (* "What are you using ..." *)
| ErrAccountID                         (* "account_id should be ..." *)
| ErrForecastAccountID
| ErrInvalidGroup (groupBy : string)   (* "Invalid group '%s'" *)
| ErrNoForecastUser                    (* "No forecast user set" *)
| ErrProjectNotFound (name : string)   (* "Could not find project ..." *)
| ErrRemote (code : Z).                (* made by the API clients *)

Inductive panic :=
| NilPointerDereference
| MakesliceCapOutOfRange.

(** How a call ends: it returns its Go results, it panics, or the fuel
    given to its loops did not suffice. *)
Inductive Outcome (A : Type) :=
| Returns (a : A)
| Panics (p : panic)
| OutOfFuel.

Arguments Returns {A} a.
Arguments Panics {A} p.
Arguments OutOfFuel {A}.

(** ** The API clients (packages [harvest] and [forecast]) *)

Module harvest.

Record User := { ID : Z }.

(** [harvest.Date] embeds a [time.Time]. *)
Record Date := mkDate { Time : GoTime.Time }.

(** [harvest.DurationHours] wraps a duration. *)
Record DurationHours := mkDurationHours { Duration : Z }.

(** Modelled from the spec: the entry type is declared in package
    [harvest]; an entry is a duration and an optional date.  [Other]
    stands for the fields the program never reads, zero in a
    composite literal that does not set them. *)
Record TimeEntry := {
  Hours : DurationHours;
  SpentDate : option Date;
  Other : Z
}.

Definition TimeEntries := list TimeEntry.

Record TimeEntriesParams := {
  UserID : option Z;
  To : option GoTime.Time;
  Page : option Z
}.

Record TimeEntriesResponse := {
  Entries : TimeEntries;          (* field [TimeEntries] *)
  NextPage : option Z
}.

(** Modelled from the spec: [harvest.Grouped] maps a group key to
    the entries of that group. *)
Definition Grouped := gmap string TimeEntries.

(** Modelled from the spec: [TimeEntries.Group] is declared in
    package [harvest].  Each entry is handed to the key function; an
    entry it accepts is appended to the bucket of its key.  The key
    function may change the entry it is given (entries are shared by
    pointer) and, in this model, may run out of fuel. *)
Fixpoint Group (entries : TimeEntries)
         (f : TimeEntry -> option (TimeEntry * (string * bool)))
         (g : Grouped) : option Grouped :=
  match entries with
  | [] => Some g
  | e :: rest =>
      match f e with
      | None => None
      | Some (e', (key, true)) =>
          Group rest f (<[key := default [] (g !! key) ++ [e']]> g)
      | Some (_, (_, false)) => Group rest f g
      end
  end.

(** The calls of the client that reach the remote service.  A call
    answers with a Go result pair, value and error.  [GetTimeEntries]
    is asked repeatedly and may answer differently each time: its
    first argument counts the calls made before. *)
Record Harvest := {
  GetMe : option User * option error;
  GetUser : Z -> option User * option error;
  GetTimeEntries :
    nat -> TimeEntriesParams -> option TimeEntriesResponse * option error
}.

End harvest.

Module forecast.

Record Me := { MeID : Z }.
Record User := { ID : Z }.
Record Project := { ProjectID : Z; Name : string }.
Record Projects := { ProjectList : list Project }.   (* field [Projects] *)
Record Assignment := { AssignmentID : Z }.
Record Assignments := { AssignmentList : list Assignment }.

Record AssignmentsParams := {
  ParamProjectID : option Z;
  ParamPersonID : option Z
}.

Record Forecast := {
  GetMe : option Me * option error;
  GetUser : Z -> option User * option error;
  GetProjects : option Projects * option error;
  GetAssignments : AssignmentsParams -> option Assignments * option error
}.

End forecast.

(** A request sent to a remote service, as recorded in call logs. *)
Inductive Call :=
| CallGetTimeEntries (p : harvest.TimeEntriesParams)
| CallGetProjects
| CallGetAssignments (p : forecast.AssignmentsParams).

(** ** [Config] *)

(** [const dateFormat = "2006-01-02"] *)
Definition dateFormat : Layout :=
  [stdLongYear; literal ["-"%char]; stdZeroMonth; literal ["-"%char];
   stdZeroDay].

Record Config := {
  AccountID : string;
  ForecastAccountID : string;
  Token : string;
  WeekdaysOff : list string;
  ExcludedDates : list string;
  excludedMap : gset string;
  weekdaysOffMap : gset Weekday
}.

Definition set_excludedMap (c : Config) (m : gset string) : Config :=
  {| AccountID := AccountID c; ForecastAccountID := ForecastAccountID c;
     Token := Token c; WeekdaysOff := WeekdaysOff c;
     ExcludedDates := ExcludedDates c;
     excludedMap := m; weekdaysOffMap := weekdaysOffMap c |}.

Definition set_weekdaysOffMap (c : Config) (m : gset Weekday) : Config :=
  {| AccountID := AccountID c; ForecastAccountID := ForecastAccountID c;
     Token := Token c; WeekdaysOff := WeekdaysOff c;
     ExcludedDates := ExcludedDates c;
     excludedMap := excludedMap c; weekdaysOffMap := m |}.

(** The first loop of [Validate]: every string is stored before it is
    parsed, and the first parse error ends the call. *)
Fixpoint validate_excluded (vs : list string) (m : gset string)
  : gset string * option error :=
  match vs with
  | [] => (m, None)
  | v :: rest =>
      let m' := {[v]} ∪ m in
      match Parse dateFormat v with
      | None => (m', Some (ErrParse v))
      | Some _ => validate_excluded rest m'
      end
  end.

(** The table [wds] of [Validate]. *)
Definition wds : gmap string Weekday :=
  list_to_map
    (map (fun w => (ToLower (weekday_String w), w))
       [Monday; Tuesday; Wednesday; Thursday; Friday; Saturday; Sunday]).

(** The second loop of [Validate]. *)
Fixpoint validate_weekdays (vs : list string) (m : gset Weekday)
  : gset Weekday * option error :=
  match vs with
  | [] => (m, None)
  | v :: rest =>
      match wds !! ToLower v with
      | None => (m, Some (ErrInvalidWeekday v))
      | Some wd => validate_weekdays rest ({[wd]} ∪ m)
      end
  end.

(** [Config.Validate]: the configuration as the call leaves it, and
    the error it returns. *)
Definition Validate (c : Config) : Config * option error :=
  let '(em, err) := validate_excluded (ExcludedDates c) ∅ in
  let c := set_excludedMap c em in
  match err with
  | Some e => (c, Some e)
  | None =>
      let '(wm, err) := validate_weekdays (WeekdaysOff c) ∅ in
      let c := set_weekdaysOffMap c wm in
      match err with
      | Some e => (c, Some e)
      | None =>
          if 6 <? Z.of_nat (size wm) then (c, Some ErrEveryDayOff)
          else (c, None)
      end
  end.

Definition Excluded (c : Config) (t : GoTime.Time) : bool :=
  bool_decide (Format t dateFormat ∈ excludedMap c).

Definition Off (c : Config) (t : GoTime.Time) : bool :=
  bool_decide (Weekday_of t ∈ weekdaysOffMap c).



(** The test of the shift loop, the spec's [IsNonWorkday]. *)
Definition IsNonWorkday (c : Config) (t : GoTime.Time) : bool :=
  Excluded c t || Off c t.

(** The loop
    [for t.conf.Excluded(d) || t.conf.Off(d) { d = d.AddDate(0, 0, -1) }],
    which the source writes out three times and the spec calls
    [ShiftToWorkday].  [None]: the fuel did not suffice. *)
Fixpoint ShiftToWorkday (fuel : nat) (c : Config) (d : GoTime.Time)
  : option GoTime.Time :=
  match fuel with
  | O => None
  | S fuel' =>
      if Excluded c d || Off c d
      then ShiftToWorkday fuel' c (AddDate d 0 0 (-1))
      else Some d
  end.

(** ** [Timetracking] *)

(** The logger field is left out: nothing here writes to it. *)
Record Timetracking := {
  conf : Config;
  harvest_ : harvest.Harvest;        (* field [harvest] *)
  forecast_ : forecast.Forecast;     (* field [forecast] *)
  user : option harvest.User;
  forecastUser : option forecast.User
}.

Definition set_user (t : Timetracking) (u : option harvest.User)
  : Timetracking :=
  {| conf := conf t; harvest_ := harvest_ t; forecast_ := forecast_ t;
     user := u; forecastUser := forecastUser t |}.

Definition set_forecastUser (t : Timetracking) (u : option forecast.User)
  : Timetracking :=
  {| conf := conf t; harvest_ := harvest_ t; forecast_ := forecast_ t;
     user := user t; forecastUser := u |}.

(** [New]; the constructors of the two clients are arguments. *)
Definition New (harvest_New : Z -> string -> harvest.Harvest)
           (forecast_New : Z -> string -> forecast.Forecast)
           (c : Config) : option Timetracking * option error :=
  match Atoi (AccountID c) with
  | None => (None, Some ErrAccountID)
  | Some aid =>
      let fid :=
        if String.eqb (ForecastAccountID c) "" then Some 0
        else Atoi (ForecastAccountID c) in
      match fid with
      | None => (None, Some ErrForecastAccountID)
      | Some fid =>
          (Some {| conf := c;
                   harvest_ := harvest_New aid (Token c);
                   forecast_ := forecast_New fid (Token c);
                   user := None; forecastUser := None |}, None)
      end
  end.

(** [SetUID]: the receiver after the call, and the error. *)
Definition SetUID (t : Timetracking) (uid : Z)
  : Timetracking * option error :=
  let t := set_user t None in
  if uid =? 0 then
    let '(u, err) := harvest.GetMe (harvest_ t) in (set_user t u, err)
  else
    let '(u, err) := harvest.GetUser (harvest_ t) uid in (set_user t u, err).

Definition SetForecastUID (t : Timetracking) (uid : Z)
  : Outcome (Timetracking * option error) :=
  let t := set_forecastUser t None in
  let finish (uid : Z) :=
    let '(u, err) := forecast.GetUser (forecast_ t) uid in
    Returns (set_forecastUser t u, err) in
  if uid =? 0 then
    match forecast.GetMe (forecast_ t) with
    | (_, Some err) => Returns (t, Some err)
    | (None, None) => Panics NilPointerDereference
    | (Some me, None) => finish (forecast.MeID me)
    end
  else finish uid.

Definition User (t : Timetracking) : option harvest.User := user t.

Definition ForecastUser (t : Timetracking) : option forecast.User :=
  forecastUser t.

(** The placeholder [&harvest.TimeEntry{Hours: ..{0}, SpentDate: ..{d}}]. *)
Definition placeholder (d : GoTime.Time) : harvest.TimeEntry :=
  {| harvest.Hours := harvest.mkDurationHours 0;
     harvest.SpentDate := Some (harvest.mkDate d);
     harvest.Other := 0 |}.

(** The loop of [GetRecentDays] under [if actualDays].  Its exit test
    stands at the end of the body.  [sf] is the fuel of each inner
    shift loop, [fuel] bounds the passes of this loop. *)
Fixpoint placeholder_loop (sf fuel : nat) (c : Config) (amount : Z)
         (d : GoTime.Time) (counter : gset string)
         (entries : harvest.TimeEntries)
  : Outcome (gset string * harvest.TimeEntries) :=
  match fuel with
  | O => OutOfFuel
  | S fuel' =>
      match ShiftToWorkday sf c d with
      | None => OutOfFuel
      | Some d =>
          let counter := {[Format d dateFormat]} ∪ counter in
          let entries := entries ++ [placeholder d] in
          let d := AddDate d 0 0 (-1) in
          if Z.of_nat (size counter) =? amount
          then Returns (counter, entries)
          else placeholder_loop sf fuel' c amount d counter entries
      end
  end.

(** How the loop over the entries of one page ends. *)
Inductive PageExit := PageDone | BreakOuter.

(** [for _, e := range res.TimeEntries { ... }] *)
Fixpoint range_entries (sf : nat) (c : Config) (amount : Z)
         (es : harvest.TimeEntries) (counter : gset string)
         (entries : harvest.TimeEntries)
  : option (PageExit * gset string * harvest.TimeEntries) :=
  match es with
  | [] => Some (PageDone, counter, entries)
  | e :: rest =>
      match harvest.SpentDate e with
      | None => range_entries sf c amount rest counter entries
      | Some sd =>
          match ShiftToWorkday sf c (harvest.Time sd) with
          | None => None
          | Some d =>
              let df := Format d dateFormat in
              if negb (bool_decide (df ∈ counter))
                 && (Z.of_nat (size counter) =? amount)
              then Some (BreakOuter, counter, entries)
              else range_entries sf c amount rest
                     ({[df]} ∪ counter) (entries ++ [e])
          end
      end
  end.

Definition set_Page (p : harvest.TimeEntriesParams) (page : option Z)
  : harvest.TimeEntriesParams :=
  {| harvest.UserID := harvest.UserID p; harvest.To := harvest.To p;
     harvest.Page := page |}.

Definition GoResult3 := (Z * harvest.TimeEntries * option error)%type.

(** The loop labelled [outer].  [n] counts the requests already sent;
    the requests sent by the loop are returned beside its outcome. *)
Fixpoint pages_loop (sf fuel : nat) (t : Timetracking) (amount : Z)
         (n : nat) (params : harvest.TimeEntriesParams)
         (counter : gset string) (entries : harvest.TimeEntries)
  : Outcome GoResult3 * list Call :=
  match fuel with
  | O => (OutOfFuel, [])
  | S fuel' =>
      let call := CallGetTimeEntries params in
      match harvest.GetTimeEntries (harvest_ t) n params with
      | (_, Some err) => (Returns (0, [], Some err), [call])
      | (None, None) => (Panics NilPointerDereference, [call])
      | (Some res, None) =>
          match range_entries sf (conf t) amount (harvest.Entries res)
                  counter entries with
          | None => (OutOfFuel, [call])
          | Some (BreakOuter, counter, entries) =>
              (Returns (Z.of_nat (size counter), entries, None), [call])
          | Some (PageDone, counter, entries) =>
              match harvest.NextPage res with
              | None =>
                  (Returns (Z.of_nat (size counter), entries, None), [call])
              | Some page =>
                  let '(o, calls) :=
                    pages_loop sf fuel' t amount (S n)
                      (set_Page params (Some page)) counter entries in
                  (o, call :: calls)
              end
          end
      end
  end.

(** [GetRecentDays].  [&t.User().ID] needs a user; [make(.., 0, amount)]
    needs a capacity that is not negative. *)
Definition GetRecentDays (fuel : nat) (t : Timetracking) (amount : Z)
           (from : GoTime.Time) (actualDays : bool)
  : Outcome GoResult3 * list Call :=
  match User t with
  | None => (Panics NilPointerDereference, [])
  | Some u =>
      let params :=
        {| harvest.UserID := Some (harvest.ID u);
           harvest.To := Some from; harvest.Page := None |} in
      if amount <? 0 then (Panics MakesliceCapOutOfRange, [])
      else
        let skeleton :=
          if actualDays
          then placeholder_loop fuel fuel (conf t) amount from ∅ []
          else Returns (∅, []) in
        match skeleton with
        | Returns (counter, entries) =>
            pages_loop fuel fuel t amount 0 params counter entries
        | Panics p => (Panics p, [])
        | OutOfFuel => (OutOfFuel, [])
        end
  end.

(** Modelled from the spec: the constants [groupByDay] ... [groupByYear]
    are declared in another file of the package; the command line
    takes "day", "week", "month" and "year". *)
Definition groupByDay : string := "day".
Definition groupByWeek : string := "week".
Definition groupByMonth : string := "month".
Definition groupByYear : string := "year".

(** The [switch groupBy] of [GetRecentDaysGrouped]: the layout chosen,
    [None] in the default case. *)
Definition groupFormat_of (groupBy : string) : option Layout :=
  if String.eqb groupBy groupByDay then Some dateFormat
  else if String.eqb groupBy groupByWeek then Some dateFormat
  else if String.eqb groupBy groupByMonth
       then Some [stdLongYear; literal ["-"%char]; stdZeroMonth]
  else if String.eqb groupBy groupByYear then Some [stdLongYear]
  else None.

(** [fmt.Sprintf("%d|%d", y, w)] *)
Definition Sprintf_d_bar_d (y w : Z) : string :=
  string_of_list_ascii (appendInt y 0 ++ ["|"%char] ++ appendInt w 0).

Definition set_SpentDate (e : harvest.TimeEntry) (d : option harvest.Date)
  : harvest.TimeEntry :=
  {| harvest.Hours := harvest.Hours e; harvest.SpentDate := d;
     harvest.Other := harvest.Other e |}.

(** The function literal handed to [Group]: the entry as the call
    leaves it, and the key and flag it returns. *)
Definition group_key (sf : nat) (c : Config) (groupBy : string)
           (groupFormat : Layout) (e : harvest.TimeEntry)
  : option (harvest.TimeEntry * (string * bool)) :=
  match harvest.SpentDate e with
  | None => Some (e, (EmptyString, false))
  | Some sd =>
      match ShiftToWorkday sf c (harvest.Time sd) with
      | None => None
      | Some d =>
          let e := set_SpentDate e (Some (harvest.mkDate d)) in
          if String.eqb groupBy groupByWeek then
            let '(y, w) := ISOWeek d in
            Some (e, (Sprintf_d_bar_d y w, true))
          else Some (e, (Format d groupFormat, true))
      end
  end.

Definition GoGrouped3 := (Z * option harvest.Grouped * option error)%type.

(** [GetRecentDaysGrouped]; a nil [harvest.Grouped] is [None]. *)
Definition GetRecentDaysGrouped (fuel : nat) (t : Timetracking)
           (amount : Z) (from : GoTime.Time) (actualDays : bool)
           (groupBy : string)
  : Outcome GoGrouped3 * list Call :=
  match groupFormat_of groupBy with
  | None => (Returns (0, None, Some (ErrInvalidGroup groupBy)), [])
  | Some groupFormat =>
      match GetRecentDays fuel t amount from actualDays with
      | (Returns (_, _, Some err), calls) =>
          (Returns (0, None, Some err), calls)
      | (Returns (days, entries, None), calls) =>
          match harvest.Group entries
                  (group_key fuel (conf t) groupBy groupFormat) ∅ with
          | None => (OutOfFuel, calls)
          | Some group => (Returns (days, Some group, None), calls)
          end
      | (Panics p, calls) => (Panics p, calls)
      | (OutOfFuel, calls) => (OutOfFuel, calls)
      end
  end.

(** The loop of [GetAssignmentsByName] over the projects. *)
Definition find_project_id (projectName : string)
           (ps : list forecast.Project) : Z :=
  fold_left
    (fun id p =>
       if String.eqb (forecast.Name p) projectName
       then forecast.ProjectID p else id)
    ps 0.

(** [GetAssignmentsByName]. *)
Definition GetAssignmentsByName (t : Timetracking) (projectName : string)
  : Outcome (list forecast.Assignment * option error) * list Call :=
  match forecastUser t with
  | None => (Returns ([], Some ErrNoForecastUser), [])
  | Some fu =>
      if forecast.ID fu =? 0
      then (Returns ([], Some ErrNoForecastUser), [])
      else
        match forecast.GetProjects (forecast_ t) with
        | (_, Some err) => (Returns ([], Some err), [CallGetProjects])
        | (None, None) => (Panics NilPointerDereference, [CallGetProjects])
        | (Some ps, None) =>
            let id := find_project_id projectName (forecast.ProjectList ps) in
            if id =? 0
            then (Returns ([], Some (ErrProjectNotFound projectName)),
                  [CallGetProjects])
            else
              let params :=
                {| forecast.ParamProjectID := Some id;
                   forecast.ParamPersonID := Some (forecast.ID fu) |} in
              let calls := [CallGetProjects; CallGetAssignments params] in
              match forecast.GetAssignments (forecast_ t) params with
              | (_, Some err) => (Returns ([], Some err), calls)
              | (None, None) => (Panics NilPointerDereference, calls)
              | (Some asg, None) =>
                  (Returns (forecast.AssignmentList asg, None), calls)
              end
        end
  end.

(** ** Bounds and conditions used in the statements *)

(** Passes of the shift loop that suffice from any start: the days
    spelled in [excludedMap] fill at most that many weeks. *)
Definition shift_fuel (c : Config) : nat := 7 * S (size (excludedMap c)).


(** The entry [e] is an entry of some successful answer of the remote
    entry source. *)
Definition remote_entry (h : harvest.Harvest) (e : harvest.TimeEntry)
  : Prop :=
  exists n p res,
    harvest.GetTimeEntries h n p = (Some res, None)
    /\ e ∈ harvest.Entries res.


Definition dated_remote_entry (h : harvest.Harvest)
           (e : harvest.TimeEntry) : Prop :=
  remote_entry h e /\ harvest.SpentDate e <> None.


(** The projects of a listing that carry the name asked for, in listing
    order, and the identifier of the last of them (0 without one). *)
Definition matching (projectName : string) (ps : list forecast.Project)
  : list forecast.Project :=
  filter (fun p => forecast.Name p = projectName) ps.

Definition last_match_id (projectName : string)
           (ps : list forecast.Project) : Z :=
  default 0 (forecast.ProjectID <$> last (matching projectName ps)).

(** The weekday [w] is named, letter case aside, in the list [vs]. *)
Definition named_off (vs : list string) (w : Weekday) : bool :=
  existsb (fun v => String.eqb (ToLower v) (ToLower (weekday_String w))) vs.

(** The key under which [GetRecentDays] counts the entry [e]: the
    [dateFormat] text of its shifted date.  [None] for an entry
    without date (and when the fuel [sf] does not suffice). *)
Definition entry_key (sf : nat) (c : Config) (e : harvest.TimeEntry)
  : option string :=
  match harvest.SpentDate e with
  | None => None
  | Some sd =>
      match ShiftToWorkday sf c (harvest.Time sd) with
      | None => None
      | Some d => Some (Format d dateFormat)
      end
  end.

(** The log [calls] is a chain of entry requests that starts with the
    request [p], numbered [n]: each request but the last was answered
    without error with a next page, and the request after it asks for
    that page and is otherwise the same. *)
Fixpoint follows_pages (h : harvest.Harvest) (n : nat)
         (p : harvest.TimeEntriesParams) (calls : list Call) : Prop :=
  match calls with
  | [] => True
  | call :: rest =>
      call = CallGetTimeEntries p
      /\ match rest with
         | [] => True
         | _ :: _ =>
             exists res page,
               harvest.GetTimeEntries h n p = (Some res, None)
               /\ harvest.NextPage res = Some page
               /\ follows_pages h (S n) (set_Page p (Some page)) rest
         end
  end.

(** The period a date falls in at a granularity: its week from Monday
    to Sunday (weeks numbered from the week of 1970-01-01), its year
    and month, its year, or the date itself. *)
Definition period_of (groupBy : string) (d : GoTime.Time) : Z * Z * Z :=
  if String.eqb groupBy groupByWeek then ((d + 3) / 7, 0, 0)
  else
    let '(y, m, dd) := Date_of d in
    if String.eqb groupBy groupByMonth then (y, m, 0)
    else if String.eqb groupBy groupByYear then (y, 0, 0)
    else (y, m, dd).

(** The entries the remote source gave in answer to the requests of a
    log, in the order received; [n] numbers the first request. *)
Fixpoint answers (h : harvest.Harvest) (n : nat) (calls : list Call)
  : harvest.TimeEntries :=
  match calls with
  | [] => []
  | CallGetTimeEntries p :: rest =>
      match harvest.GetTimeEntries h n p with
      | (Some res, None) => harvest.Entries res
      | _ => []
      end ++ answers h (S n) rest
  | _ :: rest => answers h (S n) rest
  end.

(** The entries of a list that have a date. *)
Definition dated (es : list harvest.TimeEntry) : list harvest.TimeEntry :=
  filter (fun e => is_Some (harvest.SpentDate e)) es.

(** The day an entry is dated on (day 0 for an entry without date). *)
Definition entry_day (e : harvest.TimeEntry) : GoTime.Time :=
  match harvest.SpentDate e with
  | Some sd => harvest.Time sd
  | None => 0
  end.

(** ** A sample configuration

    Saturday and Sunday off and 2018-11-01 excluded, as in the scenario
    of the specification. *)
Module Sample.

Definition config : Config :=
  {| AccountID := "654321"; ForecastAccountID := ""; Token := "abc";
     WeekdaysOff := ["Saturday"; "sunday"];
     ExcludedDates := ["2018-11-01"];
     excludedMap := ∅; weekdaysOffMap := ∅ |}.

(** The configuration as [Validate] leaves it. *)
Definition validated : Config := fst (Validate config).

(** Saturday 2018-11-24. *)
Definition saturday : GoTime.Time := Date 2018 11 24.

(** A tracked entry of five hours on day [d]. *)
Definition entry (d : GoTime.Time) : harvest.TimeEntry :=
  {| harvest.Hours := harvest.mkDurationHours 5;
     harvest.SpentDate := Some (harvest.mkDate d);
     harvest.Other := 7 |}.

(** A remote source with one page: entries of the Saturday and of the
    two days before it. *)
Definition client : harvest.Harvest :=
  {| harvest.GetMe := (Some {| harvest.ID := 3 |}, None);
     harvest.GetUser := fun uid => (Some {| harvest.ID := uid |}, None);
     harvest.GetTimeEntries := fun _ _ =>
       (Some {| harvest.Entries :=
                  [entry saturday; entry (saturday - 1);
                   entry (saturday - 2)];
                harvest.NextPage := None |}, None) |}.


(** A remote source that fails every request. *)
Definition client_down : harvest.Harvest :=
  {| harvest.GetMe := (None, Some (ErrRemote 503));
     harvest.GetUser := fun _ => (None, Some (ErrRemote 503));
     harvest.GetTimeEntries := fun _ _ => (None, Some (ErrRemote 503)) |}.

(** A project listing in which the name "alpha" occurs twice and the
    project "gamma" has the identifier 0. *)
Definition projects : list forecast.Project :=
  [ {| forecast.ProjectID := 1; forecast.Name := "alpha" |};
    {| forecast.ProjectID := 2; forecast.Name := "beta" |};
    {| forecast.ProjectID := 3; forecast.Name := "alpha" |};
    {| forecast.ProjectID := 0; forecast.Name := "gamma" |} ].

(** The assignments answer carries the identifier asked for. *)
Definition forecast_client : forecast.Forecast :=
  {| forecast.GetMe := (Some {| forecast.MeID := 9 |}, None);
     forecast.GetUser := fun uid => (Some {| forecast.ID := uid |}, None);
     forecast.GetProjects :=
       (Some {| forecast.ProjectList := projects |}, None);
     forecast.GetAssignments := fun p =>
       (Some {| forecast.AssignmentList :=
                  [ {| forecast.AssignmentID :=
                         default 0 (forecast.ParamProjectID p) |} ] |},
        None) |}.

Definition tracker_of (h : harvest.Harvest) (u : option harvest.User)
  : Timetracking :=
  {| conf := validated; harvest_ := h; forecast_ := forecast_client;
     user := u; forecastUser := Some {| forecast.ID := 9 |} |}.

Definition tracker : Timetracking :=
  tracker_of client (Some {| harvest.ID := 3 |}).


Definition tracker_down : Timetracking :=
  tracker_of client_down (Some {| harvest.ID := 3 |}).

Definition tracker_no_user : Timetracking := tracker_of client None.

(** A remote source with two pages: the first answer names page 2 as
    the next one. *)
Definition client_paged : harvest.Harvest :=
  {| harvest.GetMe := (Some {| harvest.ID := 3 |}, None);
     harvest.GetUser := fun uid => (Some {| harvest.ID := uid |}, None);
     harvest.GetTimeEntries := fun n _ =>
       match n with
       | O => (Some {| harvest.Entries := [entry saturday];
                       harvest.NextPage := Some 2 |}, None)
       | S _ => (Some {| harvest.Entries :=
                           [entry (saturday - 2); entry (saturday - 3)];
                         harvest.NextPage := None |}, None)
       end |}.

Definition tracker_paged : Timetracking :=
  tracker_of client_paged (Some {| harvest.ID := 3 |}).

(** A receiver with a forecast user stored whose forecast account
    fails every request. *)
Definition tracker_forecast_down : Timetracking :=
  {| conf := validated; harvest_ := client;
     forecast_ :=
       {| forecast.GetMe := (None, Some (ErrRemote 401));
          forecast.GetUser := fun _ => (None, Some (ErrRemote 401));
          forecast.GetProjects := (None, Some (ErrRemote 401));
          forecast.GetAssignments := fun _ => (None, Some (ErrRemote 401)) |};
     user := None; forecastUser := Some {| forecast.ID := 9 |} |}.

(** The request [GetRecentDays] sends first for user 3. *)
Definition first_request : Call :=
  CallGetTimeEntries
    {| harvest.UserID := Some 3; harvest.To := Some saturday;
       harvest.Page := None |}.

(** The request for page 2. *)
Definition second_request : Call :=
  CallGetTimeEntries
    {| harvest.UserID := Some 3; harvest.To := Some saturday;
       harvest.Page := Some 2 |}.

End Sample.

(** * Properties *)

(** ** The calendar *)

Section Calendar.

Local Ltac div_lia := Z.div_mod_to_equations; lia.

Lemma yoe_bounds (doe : Z) :
  0 <= doe < era_days ->
  let yoe := (doe - doe / 1460 + doe / 36524 - doe / 146096) / 365 in
  0 <= yoe < 400 /\ 0 <= doe - (365 * yoe + yoe / 4 - yoe / 100) <= 365.
Proof. unfold era_days. intros H. cbv zeta. div_lia. Qed.

Lemma month_day_bounds (doy : Z) :
  0 <= doy <= 365 ->
  let mp := (5 * doy + 2) / 153 in
  0 <= mp <= 11 /\ 1 <= doy - (153 * mp + 2) / 5 + 1 <= 31.
Proof. intros H. cbv zeta. div_lia. Qed.

(** Within an era the two conversions are inverse, and the fields are
    in their ranges. *)
Lemma civil_of_doe_spec (doe yoe m d : Z) :
  0 <= doe < era_days ->
  civil_of_doe doe = (yoe, m, d) ->
  0 <= yoe < 400 /\ 1 <= m <= 12 /\ 1 <= d <= 31
  /\ doe_of_civil yoe m d = doe.
Proof.
  intros Hdoe Heq. unfold civil_of_doe in Heq.
  pose proof (yoe_bounds doe Hdoe) as Hy. cbv zeta in Hy.
  set (y := (doe - doe / 1460 + doe / 36524 - doe / 146096) / 365) in *.
  destruct Hy as [Hy Hdoy].
  set (doy := doe - (365 * y + y / 4 - y / 100)) in *.
  pose proof (month_day_bounds doy Hdoy) as Hm. cbv zeta in Hm.
  set (mp := (5 * doy + 2) / 153) in *.
  destruct Hm as [Hmp Hd].
  injection Heq as <- <- <-.
  repeat split; try lia.
  - destruct (Z.ltb_spec mp 10); lia.
  - destruct (Z.ltb_spec mp 10); lia.
  - unfold doe_of_civil.
    destruct (Z.ltb_spec mp 10) as [Hlt | Hge].
    + destruct (Z.ltb_spec 2 (mp + 3)); [| lia].
      replace (mp + 3 - 3) with mp by lia. subst doy. lia.
    + destruct (Z.ltb_spec 2 (mp - 9)); [lia |].
      replace (mp - 9 + 9) with mp by lia. subst doy. lia.
Qed.

Lemma Date_of_fields (t y m d : Z) :
  Date_of t = (y, m, d) ->
  1 <= m <= 12 /\ 1 <= d <= 31 /\ days_from_civil y m d = t.
Proof.
  unfold Date_of. intros Heq.
  assert (Hdoe : 0 <= (t + epoch_shift) mod era_days < era_days)
    by (apply Z.mod_pos_bound; reflexivity).
  destruct (civil_of_doe ((t + epoch_shift) mod era_days))
    as [[yoe m'] d'] eqn:Hc.
  destruct (civil_of_doe_spec _ _ _ _ Hdoe Hc) as (Hy & Hm & Hd & Hrt).
  injection Heq as <- <- <-.
  repeat split; try lia.
  unfold days_from_civil.
  set (y' := if m' <=? 2
             then yoe + (t + epoch_shift) / era_days * 400
                  + (if m' <=? 2 then 1 else 0) - 1
             else yoe + (t + epoch_shift) / era_days * 400
                  + (if m' <=? 2 then 1 else 0)).
  assert (Hy' : y' = (t + epoch_shift) / era_days * 400 + yoe)
    by (subst y'; destruct (m' <=? 2); lia).
  rewrite Hy'.
  rewrite Z.div_add_l by lia. rewrite (Z.div_small yoe 400) by lia.
  rewrite (Z.add_comm _ yoe), Z.mod_add by lia.
  rewrite (Z.mod_small yoe 400) by lia.
  rewrite Hrt.
  pose proof (Z.div_mod (t + epoch_shift) era_days) as Hdm.
  unfold era_days in *. lia.
Qed.

(** The date fields determine the day. *)
Lemma Date_of_inj (t1 t2 : Z) : Date_of t1 = Date_of t2 -> t1 = t2.
Proof.
  intros Heq.
  destruct (Date_of t1) as [[y m] d] eqn:H1.
  symmetry in Heq.
  apply Date_of_fields in H1, Heq. lia.
Qed.

Lemma days_from_civil_day (y m d k : Z) :
  days_from_civil y m (d + k) = days_from_civil y m d + k.
Proof. unfold days_from_civil, doe_of_civil. lia. Qed.

(** Adding whole days moves the day number by as much. *)
Lemma AddDate_days (t k : Z) : AddDate t 0 0 k = t + k.
Proof.
  unfold AddDate.
  destruct (Date_of t) as [[y m] d] eqn:Hd.
  destruct (Date_of_fields _ _ _ _ Hd) as (Hm & _ & Hrt).
  unfold Date. rewrite !Z.add_0_r.
  rewrite (Z.div_small (m - 1) 12) by lia.
  rewrite (Z.mod_small (m - 1) 12) by lia.
  rewrite Z.add_0_r. replace (m - 1 + 1) with m by lia.
  rewrite days_from_civil_day. lia.
Qed.

Lemma Weekday_of_inj_mod (t1 t2 : Z) :
  Weekday_of t1 = Weekday_of t2 -> (t1 + 4) mod 7 = (t2 + 4) mod 7.
Proof.
  unfold Weekday_of.
  pose proof (Z.mod_pos_bound (t1 + 4) 7 eq_refl) as H1.
  pose proof (Z.mod_pos_bound (t2 + 4) 7 eq_refl) as H2.
  set (a := (t1 + 4) mod 7) in *. set (b := (t2 + 4) mod 7) in *.
  clearbody a b. intros Hw.
  assert (Ha : a = 0 \/ a = 1 \/ a = 2 \/ a = 3 \/ a = 4 \/ a = 5 \/ a = 6)
    by lia.
  assert (Hb : b = 0 \/ b = 1 \/ b = 2 \/ b = 3 \/ b = 4 \/ b = 5 \/ b = 6)
    by lia.
  destruct Ha as [-> | [-> | [-> | [-> | [-> | [-> | ->]]]]]];
    destruct Hb as [-> | [-> | [-> | [-> | [-> | [-> | ->]]]]]];
    simpl in Hw; (reflexivity || discriminate Hw).
Qed.

Lemma Weekday_of_week (t k : Z) : Weekday_of (t - 7 * k) = Weekday_of t.
Proof.
  unfold Weekday_of. f_equal.
  replace (t - 7 * k + 4) with (t + 4 + (- k) * 7) by lia.
  apply Z.mod_add. lia.
Qed.

(** Every weekday occurs among seven consecutive days. *)
Lemma weekday_within_week (w : Weekday) (t : Z) :
  exists i, 0 <= i < 7 /\ Weekday_of (t - i) = w.
Proof.
  exists ((t + 4 - weekday_to_Z w) mod 7).
  split; [apply Z.mod_pos_bound; reflexivity |].
  unfold Weekday_of.
  assert (Hw : 0 <= weekday_to_Z w < 7) by (destruct w; simpl; lia).
  assert (Heq : (t - (t + 4 - weekday_to_Z w) mod 7 + 4) mod 7
                = weekday_to_Z w).
  { pose proof (Z.div_mod (t + 4 - weekday_to_Z w) 7 ltac:(lia)) as Hdm.
    replace (t - (t + 4 - weekday_to_Z w) mod 7 + 4)
      with (weekday_to_Z w + (t + 4 - weekday_to_Z w) / 7 * 7) by lia.
    rewrite Z.mod_add by lia. apply Z.mod_small; lia. }
  rewrite Heq. destruct w; reflexivity.
Qed.

End Calendar.

(** ** Formatting is injective *)

Section Formatting.

Lemma digit_inj (a b : Z) :
  0 <= a < 10 -> 0 <= b < 10 -> digit a = digit b -> a = b.
Proof.
  intros Ha Hb.
  assert (Ha' : a = 0 \/ a = 1 \/ a = 2 \/ a = 3 \/ a = 4 \/ a = 5
                \/ a = 6 \/ a = 7 \/ a = 8 \/ a = 9) by lia.
  assert (Hb' : b = 0 \/ b = 1 \/ b = 2 \/ b = 3 \/ b = 4 \/ b = 5
                \/ b = 6 \/ b = 7 \/ b = 8 \/ b = 9) by lia.
  clear Ha Hb. intros Hd.
  destruct Ha' as [-> | [-> | [-> | [-> | [-> | [-> | [-> | [-> | [-> | ->]]]]]]]]];
    destruct Hb' as [-> | [-> | [-> | [-> | [-> | [-> | [-> | [-> | [-> | ->]]]]]]]]];
    simpl in Hd; (reflexivity || discriminate Hd).
Qed.

Lemma digit_not_minus (n : Z) : digit n <> "-"%char.
Proof.
  unfold digit. destruct n as [| p | p]; try discriminate.
  do 4 (destruct p; try discriminate).
Qed.

Lemma length_digits_w (w : nat) (u : Z) : length (digits_w w u) = w.
Proof.
  revert u. induction w as [| w IH]; intros u; simpl; [reflexivity |].
  rewrite length_app, IH. simpl. lia.
Qed.

Lemma digits_w_inj (w : nat) (a b : Z) :
  digits_w w a = digits_w w b ->
  a mod 10 ^ Z.of_nat w = b mod 10 ^ Z.of_nat w.
Proof.
  revert a b. induction w as [| w IH]; intros a b Heq.
  - simpl. rewrite !Z.mod_1_r. reflexivity.
  - simpl in Heq. apply app_inj_tail in Heq as [Hhi Hlo].
    apply IH in Hhi.
    apply digit_inj in Hlo; try (apply Z.mod_pos_bound; lia).
    rewrite Nat2Z.inj_succ, Z.pow_succ_r by lia.
    rewrite !Z.rem_mul_r by lia. lia.
Qed.

(** A list of at least one digit starts with a digit. *)
Lemma digits_w_head (w : nat) (u : Z) :
  (1 <= w)%nat -> exists k rest, digits_w w u = digit k :: rest.
Proof.
  revert u. induction w as [| w IH]; intros u Hw; [lia |].
  simpl. destruct w as [| w'].
  - simpl. eauto.
  - destruct (IH (u / 10) ltac:(lia)) as (k & rest & ->).
    simpl. eauto.
Qed.

Lemma count_digits_spec (fuel : nat) (u : Z) :
  0 <= u < 2 ^ Z.of_nat fuel ->
  u < 10 ^ Z.of_nat (count_digits fuel u)
  /\ (0 < u -> exists c, count_digits fuel u = S c /\ 10 ^ Z.of_nat c <= u).
Proof.
  revert u. induction fuel as [| fuel IH]; intros u Hu.
  - simpl in *. lia.
  - rewrite Nat2Z.inj_succ, Z.pow_succ_r in Hu by lia.
    simpl count_digits.
    destruct (Z.ltb_spec 0 u) as [Hpos | Hnpos]; [| simpl; lia].
    assert (Hq : 0 <= u / 10 < 2 ^ Z.of_nat fuel).
    { generalize dependent (2 ^ Z.of_nat fuel). intros p _ Hp.
      Z.div_mod_to_equations. lia. }
    destruct (IH _ Hq) as [Hlt Hge].
    rewrite Nat2Z.inj_succ, Z.pow_succ_r by lia.
    split.
    + generalize dependent (10 ^ Z.of_nat (count_digits fuel (u / 10))).
      intros p Hp. Z.div_mod_to_equations. lia.
    + intros _. eexists. split; [reflexivity |].
      destruct (Z.ltb_spec 0 (u / 10)) as [Hqpos | Hq0].
      * destruct (Hge Hqpos) as (c & Hc & Hle). rewrite Hc.
        rewrite Nat2Z.inj_succ, Z.pow_succ_r by lia.
        generalize dependent (10 ^ Z.of_nat c). intros p Hp.
        Z.div_mod_to_equations. lia.
      * assert (Hz : u / 10 = 0) by lia. rewrite Hz.
        replace (count_digits fuel 0) with O by (destruct fuel; reflexivity).
        simpl. lia.
Qed.

Lemma ndigits_spec (u : Z) :
  0 <= u ->
  (1 <= ndigits u)%nat
  /\ u < 10 ^ Z.of_nat (ndigits u)
  /\ (forall k : nat, (1 <= k)%nat -> u < 10 ^ Z.of_nat k ->
                      (ndigits u <= k)%nat).
Proof.
  intros Hu. unfold ndigits.
  destruct (Z.eqb_spec u 0) as [-> | Hne].
  - simpl. repeat split; try lia.
  - assert (Hpos : 0 < u) by lia.
    pose proof (Z.log2_spec u Hpos) as [_ Hlog].
    pose proof (Z.log2_nonneg u) as Hnn.
    assert (Hfuel : 0 <= u < 2 ^ Z.of_nat (S (Z.to_nat (Z.log2 u)))).
    { rewrite Nat2Z.inj_succ, Z2Nat.id by lia. lia. }
    destruct (count_digits_spec _ _ Hfuel) as [Hlt Hge].
    destruct (Hge Hpos) as (c & Hc & Hle).
    repeat split; try lia.
    intros k Hk Hlt'. rewrite Hc.
    assert (Hck : Z.of_nat c < Z.of_nat k).
    { apply (Z.pow_lt_mono_r_iff 10); lia. }
    lia.
Qed.

Lemma appendInt_nonneg (x : Z) (w : nat) :
  0 <= x ->
  appendInt x w = digits_w (Nat.max w (ndigits x)) x.
Proof.
  intros Hx. unfold appendInt.
  destruct (Z.ltb_spec x 0); [lia |].
  rewrite Z.abs_eq by lia. reflexivity.
Qed.

Lemma appendInt_neg (x : Z) (w : nat) :
  x < 0 ->
  appendInt x w = "-"%char :: digits_w (Nat.max w (ndigits (- x))) (- x).
Proof.
  intros Hx. unfold appendInt.
  destruct (Z.ltb_spec x 0); [| lia].
  rewrite Z.abs_neq by lia. reflexivity.
Qed.

(** A field that fits its width is printed with exactly that width. *)
Lemma appendInt_fixed (x : Z) (w : nat) :
  (1 <= w)%nat -> 0 <= x < 10 ^ Z.of_nat w ->
  appendInt x w = digits_w w x.
Proof.
  intros Hw Hx. rewrite appendInt_nonneg by lia.
  destruct (ndigits_spec x ltac:(lia)) as (_ & _ & Hmin).
  rewrite Nat.max_l; [reflexivity |]. apply Hmin; lia.
Qed.

Lemma digits_padded_inj (w : nat) (a b : Z) :
  0 <= a -> 0 <= b ->
  digits_w (Nat.max w (ndigits a)) a = digits_w (Nat.max w (ndigits b)) b ->
  a = b.
Proof.
  intros Ha Hb Heq.
  assert (Hlen : Nat.max w (ndigits a) = Nat.max w (ndigits b)).
  { apply (f_equal (@length ascii)) in Heq.
    rewrite !length_digits_w in Heq. exact Heq. }
  rewrite <- Hlen in Heq. apply digits_w_inj in Heq.
  destruct (ndigits_spec a Ha) as (_ & Hla & _).
  destruct (ndigits_spec b Hb) as (_ & Hlb & _).
  assert (Hmono : forall n : nat, (n <= Nat.max w (ndigits a))%nat ->
            10 ^ Z.of_nat n <= 10 ^ Z.of_nat (Nat.max w (ndigits a))).
  { intros n Hn. apply Z.pow_le_mono_r; lia. }
  pose proof (Hmono (ndigits a) ltac:(lia)) as H1.
  pose proof (Hmono (ndigits b) ltac:(lia)) as H2.
  rewrite !Z.mod_small in Heq by lia. exact Heq.
Qed.

Lemma appendInt_inj (w : nat) (x y : Z) :
  appendInt x w = appendInt y w -> x = y.
Proof.
  intros Heq.
  assert (Hhead : forall a b : Z, a < 0 -> 0 <= b ->
                    appendInt a w <> appendInt b w).
  { intros a b Ha Hb Habs.
    rewrite appendInt_neg, appendInt_nonneg in Habs by lia.
    destruct (ndigits_spec b Hb) as (Hn & _).
    destruct (digits_w_head (Nat.max w (ndigits b)) b ltac:(lia))
      as (k & rest & Hk).
    rewrite Hk in Habs. injection Habs as Hc _.
    symmetry in Hc. exact (digit_not_minus k Hc). }
  destruct (Z.lt_ge_cases x 0) as [Hx | Hx];
    destruct (Z.lt_ge_cases y 0) as [Hy | Hy].
  - rewrite !appendInt_neg in Heq by lia. injection Heq as Heq.
    apply digits_padded_inj in Heq; lia.
  - exfalso. exact (Hhead x y Hx Hy Heq).
  - exfalso. symmetry in Heq. exact (Hhead y x Hy Hx Heq).
  - rewrite !appendInt_nonneg in Heq by lia.
    apply digits_padded_inj in Heq; lia.
Qed.

Lemma string_of_list_ascii_inj (l1 l2 : list ascii) :
  string_of_list_ascii l1 = string_of_list_ascii l2 -> l1 = l2.
Proof.
  intros Heq. apply (f_equal list_ascii_of_string) in Heq.
  rewrite !list_ascii_of_string_of_list_ascii in Heq. exact Heq.
Qed.

(** The layout of [dateFormat] on a date: the year, then two digits
    for the month and two for the day. *)
Lemma format_dateFormat (t y m d : Z) :
  Date_of t = (y, m, d) ->
  format_chunks (Date_of t) dateFormat
  = appendInt y 4 ++ "-"%char :: digits_w 2 m ++ "-"%char :: digits_w 2 d.
Proof.
  intros Hd. destruct (Date_of_fields _ _ _ _ Hd) as (Hm & Hday & _).
  rewrite Hd. unfold format_chunks, dateFormat. simpl concat.
  rewrite !(appendInt_fixed _ 2) by (simpl; lia).
  rewrite app_nil_r. reflexivity.
Qed.

(** Two days with the same [dateFormat] text are the same day: the
    keys of the counter and of [excludedMap] stand for days. *)
Lemma Format_dateFormat_inj (t1 t2 : Z) :
  Format t1 dateFormat = Format t2 dateFormat -> t1 = t2.
Proof.
  unfold Format. intros Heq. apply string_of_list_ascii_inj in Heq.
  destruct (Date_of t1) as [[y1 m1] d1] eqn:H1.
  destruct (Date_of t2) as [[y2 m2] d2] eqn:H2.
  rewrite <- H1, <- H2 in Heq.
  rewrite (format_dateFormat _ _ _ _ H1), (format_dateFormat _ _ _ _ H2) in Heq.
  destruct (Date_of_fields _ _ _ _ H1) as (Hm1 & Hd1 & _).
  destruct (Date_of_fields _ _ _ _ H2) as (Hm2 & Hd2 & _).
  apply app_inj_2 in Heq as [Hy Htail];
    [| reflexivity].
  apply appendInt_inj in Hy.
  simpl in Htail. injection Htail as Hm10 Hm01 Hd10 Hd01.
  apply digit_inj in Hm10, Hm01, Hd10, Hd01;
    try (apply Z.mod_pos_bound; lia).
  assert (m1 = m2 /\ d1 = d2) as [-> ->]
    by (Z.div_mod_to_equations; lia).
  apply Date_of_inj. congruence.
Qed.

End Formatting.

(** ** The backward shift *)

Section Shift.

Variable c : Config.

Lemma ShiftToWorkday_more_fuel (fuel fuel' : nat) (d d' : Z) :
  ShiftToWorkday fuel c d = Some d' -> (fuel <= fuel')%nat ->
  ShiftToWorkday fuel' c d = Some d'.
Proof.
  revert fuel' d. induction fuel as [| fuel IH]; intros fuel' d Hs Hle.
  - discriminate Hs.
  - destruct fuel' as [| fuel']; [lia |].
    simpl in *. destruct (Excluded c d || Off c d).
    + apply IH; [exact Hs | lia].
    + exact Hs.
Qed.

(** What the loop returns is the first workday at or before its start. *)
Lemma ShiftToWorkday_spec (fuel : nat) (d d' : Z) :
  ShiftToWorkday fuel c d = Some d' ->
  d' <= d /\ IsNonWorkday c d' = false
  /\ (forall x, d' < x <= d -> IsNonWorkday c x = true).
Proof.
  revert d. induction fuel as [| fuel IH]; intros d Hs; [discriminate Hs |].
  simpl in Hs. destruct (Excluded c d || Off c d) eqn:Hnw.
  - rewrite AddDate_days in Hs. destruct (IH _ Hs) as (Hle & Hwd & Hbetween).
    split; [lia |]. split; [exact Hwd |].
    intros x Hx. destruct (Z.eq_dec x d) as [-> | Hne]; [exact Hnw |].
    apply Hbetween. lia.
  - injection Hs as <-. split; [lia |]. split; [exact Hnw |].
    intros x Hx. lia.
Qed.

Lemma ShiftToWorkday_workday (fuel : nat) (d : Z) :
  IsNonWorkday c d = false -> ShiftToWorkday (S fuel) c d = Some d.
Proof. unfold IsNonWorkday. intros Hwd. simpl. rewrite Hwd. reflexivity. Qed.

Lemma ShiftToWorkday_None (fuel : nat) (d : Z) :
  ShiftToWorkday fuel c d = None ->
  forall i, 0 <= i < Z.of_nat fuel -> IsNonWorkday c (d - i) = true.
Proof.
  revert d. induction fuel as [| fuel IH]; intros d Hs i Hi; [lia |].
  simpl in Hs. destruct (Excluded c d || Off c d) eqn:Hnw; [| discriminate Hs].
  rewrite AddDate_days in Hs.
  destruct (Z.eq_dec i 0) as [-> | Hne].
  - rewrite Z.sub_0_r. exact Hnw.
  - replace (d - i) with (d + -1 - (i - 1)) by lia. apply IH; [exact Hs | lia].
Qed.

Lemma all_weekdays_NoDup : NoDup all_weekdays.
Proof.
  apply (bool_decide_unpack _). vm_compute. exact I.
Qed.

(** With at most six weekdays off, some weekday is worked. *)
Lemma worked_weekday_exists :
  (size (weekdaysOffMap c) <= 6)%nat -> exists w, w ∉ weekdaysOffMap c.
Proof.
  intros Hsize.
  destruct (decide (Forall (fun w => w ∈ weekdaysOffMap c) all_weekdays))
    as [Hall | Hsome].
  - exfalso.
    assert (Hsub : list_to_set all_weekdays ⊆ weekdaysOffMap c).
    { intros w Hw. apply elem_of_list_to_set in Hw.
      rewrite Forall_forall in Hall. apply Hall. exact Hw. }
    apply subseteq_size in Hsub.
    rewrite size_list_to_set in Hsub by apply all_weekdays_NoDup.
    simpl in Hsub. lia.
  - apply not_Forall_Exists in Hsome; [| intros w; apply _].
    apply Exists_exists in Hsome as (w & _ & Hw). exists w. exact Hw.
Qed.

(** The loop ends within [shift_fuel c] passes: among that many days
    there are more days of a worked weekday than [excludedMap] has
    entries, and different days have different keys. *)
Lemma ShiftToWorkday_terminates (d : Z) :
  (size (weekdaysOffMap c) <= 6)%nat ->
  exists d', ShiftToWorkday (shift_fuel c) c d = Some d'.
Proof.
  intros Hsize.
  destruct (ShiftToWorkday (shift_fuel c) c d) as [d' |] eqn:Hs; [eauto |].
  exfalso.
  pose proof (ShiftToWorkday_None _ _ Hs) as Hnone.
  destruct (worked_weekday_exists Hsize) as (w & Hw).
  destruct (weekday_within_week w d) as (i0 & Hi0 & Hwd).
  set (n := size (excludedMap c)) in *.
  set (day := fun j : nat => d - i0 - 7 * Z.of_nat j).
  set (keys := (fun j => Format (day j) dateFormat) <$> seq 0 (S n)).
  assert (Hin : forall k, k ∈ keys -> k ∈ excludedMap c).
  { intros k Hk. apply list_elem_of_fmap in Hk as (j & -> & Hj).
    apply elem_of_seq in Hj.
    assert (Hnw : IsNonWorkday c (day j) = true).
    { unfold day. replace (d - i0 - 7 * Z.of_nat j)
        with (d - (i0 + 7 * Z.of_nat j)) by lia.
      apply Hnone. unfold shift_fuel. fold n. lia. }
    unfold IsNonWorkday, Excluded, Off in Hnw.
    assert (Hday : Weekday_of (day j) = w).
    { unfold day. rewrite Weekday_of_week. exact Hwd. }
    rewrite Hday in Hnw.
    rewrite (bool_decide_eq_false_2 _ Hw), orb_false_r in Hnw.
    apply bool_decide_eq_true_1 in Hnw. exact Hnw. }
  assert (Hnodup : NoDup keys).
  { apply NoDup_fmap_2_strong; [| apply NoDup_seq].
    intros j1 j2 _ _ Hk. apply Format_dateFormat_inj in Hk.
    unfold day in Hk. lia. }
  assert (Hsub : list_to_set keys ⊆ excludedMap c).
  { intros k Hk. apply elem_of_list_to_set in Hk. apply Hin. exact Hk. }
  apply subseteq_size in Hsub.
  rewrite size_list_to_set in Hsub by exact Hnodup.
  unfold keys in Hsub. rewrite length_fmap, length_seq in Hsub.
  fold n in Hsub. lia.
Qed.

(** A date that is a workday shifts to itself, so shifting again
    changes nothing. *)
Lemma ShiftToWorkday_fixpoint (fuel fuel' : nat) (d d' : Z) :
  ShiftToWorkday fuel c d = Some d' ->
  ShiftToWorkday (S fuel') c d' = Some d'.
Proof.
  intros Hs. apply ShiftToWorkday_workday.
  apply ShiftToWorkday_spec in Hs. tauto.
Qed.

End Shift.

(** ** [Validate] *)

Section Validation.

Lemma wds_lookup_Some (s : string) (w : Weekday) :
  wds !! s = Some w <-> s = ToLower (weekday_String w).
Proof.
  unfold wds. rewrite <- elem_of_list_to_map.
  - rewrite list_elem_of_fmap. split.
    + intros (w' & Heq & _). injection Heq as -> ->. reflexivity.
    + intros ->. exists w. split; [reflexivity |].
      destruct w; set_solver.
  - apply (bool_decide_unpack _). vm_compute. exact I.
Qed.


Lemma validate_excluded_error (vs : list string) (m : gset string) :
  snd (validate_excluded vs m) <> None
  <-> exists v, v ∈ vs /\ Parse dateFormat v = None.
Proof.
  revert m. induction vs as [| v vs IH]; intros m; simpl.
  - split; [congruence |]. intros (v & Hin & _). inversion Hin.
  - destruct (Parse dateFormat v) as [t |] eqn:Hp; simpl.
    + rewrite IH. split.
      * intros (v' & Hin & Hv'). exists v'. split; [right; exact Hin | exact Hv'].
      * intros (v' & Hin & Hv'). apply elem_of_cons in Hin as [-> | Hin];
          [congruence |]. eauto.
    + split; [| congruence]. intros _. exists v. split; [left | exact Hp].
Qed.

Lemma validate_excluded_keys (vs : list string) (m : gset string) :
  snd (validate_excluded vs m) = None ->
  fst (validate_excluded vs m) = list_to_set vs ∪ m.
Proof.
  revert m. induction vs as [| v vs IH]; intros m; simpl.
  - intros _. set_solver.
  - destruct (Parse dateFormat v); simpl; [| discriminate].
    intros Hok. rewrite (IH _ Hok). set_solver.
Qed.


Lemma validate_weekdays_elem (vs : list string) (m : gset Weekday) (w : Weekday) :
  snd (validate_weekdays vs m) = None ->
  w ∈ fst (validate_weekdays vs m)
  <-> w ∈ m \/ exists v, v ∈ vs /\ ToLower v = ToLower (weekday_String w).
Proof.
  revert m. induction vs as [| v vs IH]; intros m; simpl.
  - intros _. split; [tauto |]. intros [Hm | (v & Hin & _)];
      [exact Hm | inversion Hin].
  - destruct (wds !! ToLower v) as [w' |] eqn:Hl; simpl; [| discriminate].
    intros Hok. rewrite (IH _ Hok). apply wds_lookup_Some in Hl.
    rewrite elem_of_union, elem_of_singleton. split.
    + intros [[-> | Hm] | (v' & Hin & Hv')].
      * right. exists v. split; [left | exact Hl].
      * left. exact Hm.
      * right. exists v'. split; [right; exact Hin | exact Hv'].
    + intros [Hm | (v' & Hin & Hv')]; [tauto |].
      apply elem_of_cons in Hin as [-> | Hin].
      * left. left. apply wds_lookup_Some in Hv'.
        apply wds_lookup_Some in Hl. congruence.
      * right. eauto.
Qed.


(** A configuration that passed [Validate] has a worked weekday. *)
Lemma Validate_ok_size (c c' : Config) :
  Validate c = (c', None) -> (size (weekdaysOffMap c') <= 6)%nat.
Proof.
  unfold Validate.
  destruct (validate_excluded (ExcludedDates c) ∅) as [em [e |]];
    [intros H; discriminate H |].
  simpl WeekdaysOff.
  destruct (validate_weekdays (WeekdaysOff c) ∅) as [wm [e |]];
    [intros H; discriminate H |].
  destruct (Z.ltb_spec 6 (Z.of_nat (size wm))) as [Hgt | Hle];
    intros H; [discriminate H |].
  injection H as <-. simpl. lia.
Qed.

End Validation.

(** ** The claims on the configuration and on the shift *)


(** C5.  On a configuration that passed [Validate], the backward shift
    from any date ends (every fuel from [shift_fuel] on gives the same
    result) and yields a date not after the start that is neither
    excluded nor on an off-weekday. *)
Theorem ShiftToWorkday_validated (c c' : Config) (d : GoTime.Time) :
  Validate c = (c', None) ->
  exists d',
    (forall fuel, (shift_fuel c' <= fuel)%nat ->
                  ShiftToWorkday fuel c' d = Some d')
    /\ d' <= d
    /\ IsNonWorkday c' d' = false
    /\ Excluded c' d' = false /\ Off c' d' = false.
Proof.
  intros Hv. apply Validate_ok_size in Hv.
  destruct (ShiftToWorkday_terminates c' d Hv) as (d' & Hs).
  exists d'. split.
  - intros fuel Hfuel. exact (ShiftToWorkday_more_fuel c' _ _ _ _ Hs Hfuel).
  - destruct (ShiftToWorkday_spec c' _ _ _ Hs) as (Hle & Hwd & _).
    split; [exact Hle |]. split; [exact Hwd |].
    unfold IsNonWorkday in Hwd. apply orb_false_iff in Hwd. exact Hwd.
Qed.

(** The scenario of the specification: 2018-11-01 is excluded and
    shifts to Wednesday 2018-10-31. *)
Lemma ShiftToWorkday_validated_witness :
  exists d',
    (forall fuel, (shift_fuel Sample.validated <= fuel)%nat ->
                  ShiftToWorkday fuel Sample.validated (Date 2018 11 1)
                  = Some d')
    /\ d' <= Date 2018 11 1
    /\ IsNonWorkday Sample.validated d' = false
    /\ Excluded Sample.validated d' = false
    /\ Off Sample.validated d' = false.
Proof.
  apply (ShiftToWorkday_validated Sample.config Sample.validated).
  vm_compute. reflexivity.
Defined.

(** C6.  On a configuration that passed [Validate], shifting the result
    of a shift again gives the same date: the shift is idempotent. *)
Theorem ShiftToWorkday_idempotent (c c' : Config) (d : GoTime.Time) :
  Validate c = (c', None) ->
  exists d',
    forall fuel, (shift_fuel c' <= fuel)%nat ->
      ShiftToWorkday fuel c' d = Some d'
      /\ ShiftToWorkday fuel c' d' = Some d'.
Proof.
  intros Hv. apply Validate_ok_size in Hv.
  destruct (ShiftToWorkday_terminates c' d Hv) as (d' & Hs).
  exists d'. intros fuel Hfuel.
  split; [exact (ShiftToWorkday_more_fuel c' _ _ _ _ Hs Hfuel) |].
  destruct fuel as [| fuel]; [unfold shift_fuel in Hfuel; lia |].
  exact (ShiftToWorkday_fixpoint c' _ fuel _ _ Hs).
Qed.

(** Saturday 2018-11-24 shifts to Friday 2018-11-23 and stays there. *)
Lemma ShiftToWorkday_idempotent_witness :
  exists d',
    forall fuel, (shift_fuel Sample.validated <= fuel)%nat ->
      ShiftToWorkday fuel Sample.validated (Date 2018 11 24) = Some d'
      /\ ShiftToWorkday fuel Sample.validated d' = Some d'.
Proof.
  apply (ShiftToWorkday_idempotent Sample.config Sample.validated).
  vm_compute. reflexivity.
Defined.

(** ** The collector *)

Section Collector.

Lemma size_add_key (k : string) (s : gset string) :
  size ({[k]} ∪ s) = if bool_decide (k ∈ s) then size s else S (size s).
Proof.
  destruct (bool_decide_reflect (k ∈ s)) as [Hin | Hout].
  - f_equal. apply subseteq_union_1_L. set_solver.
  - rewrite size_union by set_solver. rewrite size_singleton. reflexivity.
Qed.

Variable sf : nat.
Variable c : Config.
Variable amount : Z.

(** The entries loop never takes the counter past [amount]. *)
Lemma range_entries_count (es : harvest.TimeEntries) (counter : gset string)
      (entries : harvest.TimeEntries) exit counter' entries' :
  range_entries sf c amount es counter entries
  = Some (exit, counter', entries') ->
  Z.of_nat (size counter) <= amount ->
  Z.of_nat (size counter') <= amount.
Proof.
  revert counter entries.
  induction es as [| e es IH]; intros counter entries Hr Hle; simpl in Hr.
  - injection Hr as _ <- _. exact Hle.
  - destruct (harvest.SpentDate e) as [sd |]; [| exact (IH _ _ Hr Hle)].
    destruct (ShiftToWorkday sf c (harvest.Time sd)) as [d |];
      [| discriminate Hr].
    destruct (negb (bool_decide (Format d dateFormat ∈ counter))
              && (Z.of_nat (size counter) =? amount)) eqn:Hbrk.
    + injection Hr as _ <- _. exact Hle.
    + apply (IH _ _ Hr). rewrite size_add_key.
      destruct (bool_decide (Format d dateFormat ∈ counter)); [exact Hle |].
      simpl in Hbrk. apply Z.eqb_neq in Hbrk. lia.
Qed.


(** The entries loop appends entries of the page, each with a date,
    and appends them as they are. *)
Lemma range_entries_kept (es : harvest.TimeEntries) (counter : gset string)
      (entries : harvest.TimeEntries) exit counter' entries' :
  range_entries sf c amount es counter entries
  = Some (exit, counter', entries') ->
  exists kept,
    entries' = entries ++ kept
    /\ Forall (fun e => e ∈ es /\ harvest.SpentDate e <> None) kept.
Proof.
  revert counter entries.
  induction es as [| e es IH]; intros counter entries Hr; simpl in Hr.
  - injection Hr as _ _ <-. exists []. rewrite app_nil_r. split; constructor.
  - assert (Hweaken : forall kept,
              Forall (fun e0 => e0 ∈ es /\ harvest.SpentDate e0 <> None) kept ->
              Forall (fun e0 => e0 ∈ e :: es /\ harvest.SpentDate e0 <> None)
                kept).
    { intros kept Hk. eapply Forall_impl; [exact Hk |].
      intros e0 [Hin Hd]. split; [right; exact Hin | exact Hd]. }
    destruct (harvest.SpentDate e) as [sd |] eqn:Hsd.
    + destruct (ShiftToWorkday sf c (harvest.Time sd)) as [d |];
        [| discriminate Hr].
      destruct (negb (bool_decide (Format d dateFormat ∈ counter))
                && (Z.of_nat (size counter) =? amount)).
      * injection Hr as _ _ <-. exists []. rewrite app_nil_r.
        split; constructor.
      * destruct (IH _ _ Hr) as (kept & -> & Hkept).
        exists (e :: kept). rewrite <- app_assoc. split; [reflexivity |].
        constructor; [| exact (Hweaken _ Hkept)].
        split; [left | congruence].
    + destruct (IH _ _ Hr) as (kept & -> & Hkept).
      exists kept. split; [reflexivity | exact (Hweaken _ Hkept)].
Qed.



(** The placeholder loop leaves only with a counter of [amount] days. *)
Lemma placeholder_loop_count (fuel : nat) (d : Z) (counter : gset string)
      (entries : harvest.TimeEntries) counter' entries' :
  placeholder_loop sf fuel c amount d counter entries
  = Returns (counter', entries') ->
  Z.of_nat (size counter') = amount.
Proof.
  revert d counter entries.
  induction fuel as [| fuel IH]; intros d counter entries Hp; simpl in Hp;
    [discriminate Hp |].
  destruct (ShiftToWorkday sf c d) as [d' |]; [| discriminate Hp].
  destruct (Z.eqb_spec (Z.of_nat (size ({[Format d' dateFormat]} ∪ counter)))
              amount) as [Heq | Hne].
  - injection Hp as <- _. exact Heq.
  - exact (IH _ _ _ Hp).
Qed.

(** What the placeholder loop appends are placeholders of workdays. *)
Lemma placeholder_loop_entries (fuel : nat) (d : Z) (counter : gset string)
      (entries : harvest.TimeEntries) counter' entries' :
  placeholder_loop sf fuel c amount d counter entries
  = Returns (counter', entries') ->
  exists days,
    entries' = entries ++ map placeholder days
    /\ Forall (fun x => IsNonWorkday c x = false) days.
Proof.
  revert d counter entries.
  induction fuel as [| fuel IH]; intros d counter entries Hp; simpl in Hp;
    [discriminate Hp |].
  destruct (ShiftToWorkday sf c d) as [d' |] eqn:Hs; [| discriminate Hp].
  apply ShiftToWorkday_spec in Hs as (_ & Hwd & _).
  destruct (Z.of_nat (size ({[Format d' dateFormat]} ∪ counter)) =? amount).
  - injection Hp as _ <-. exists [d']. split; [reflexivity |].
    constructor; [exact Hwd | constructor].
  - destruct (IH _ _ _ Hp) as (days & -> & Hdays).
    exists (d' :: days). rewrite <- app_assoc. split; [reflexivity |].
    constructor; assumption.
Qed.

(** With an [amount] below one the exit test of the placeholder loop
    never holds: the counter has a member when the test is reached. *)
Lemma placeholder_loop_never (fuel : nat) (d : Z) (counter : gset string)
      (entries : harvest.TimeEntries) :
  amount <= 0 ->
  placeholder_loop sf fuel c amount d counter entries = OutOfFuel.
Proof.
  intros Hneg. revert d counter entries.
  induction fuel as [| fuel IH]; intros d counter entries; simpl;
    [reflexivity |].
  destruct (ShiftToWorkday sf c d) as [d' |]; [| reflexivity].
  destruct (Z.eqb_spec (Z.of_nat (size ({[Format d' dateFormat]} ∪ counter)))
              amount) as [Heq | Hne]; [| apply IH].
  exfalso. rewrite size_add_key in Heq.
  destruct (bool_decide_reflect (Format d' dateFormat ∈ counter))
    as [Hin | Hout]; [| lia].
  assert (Hsz : size counter <> 0%nat).
  { intros Hz. apply size_empty_inv in Hz. set_solver. }
  lia.
Qed.

End Collector.

Section CollectorRuns.

Variable sf : nat.
Variable t : Timetracking.
Variable amount : Z.

(** The page loop returns a count that is at most [amount]. *)
Lemma pages_loop_count (fuel n : nat) (params : harvest.TimeEntriesParams)
      (counter : gset string) (entries : harvest.TimeEntries)
      cnt es err calls :
  0 <= amount ->
  Z.of_nat (size counter) <= amount ->
  pages_loop sf fuel t amount n params counter entries
  = (Returns (cnt, es, err), calls) ->
  cnt <= amount.
Proof.
  intros Hamount. revert n params counter entries calls.
  induction fuel as [| fuel IH]; intros n params counter entries calls Hle Hp;
    simpl in Hp; [discriminate Hp |].
  destruct (harvest.GetTimeEntries (harvest_ t) n params) as [[res |] [e |]];
    try (injection Hp as <- _ _ _; exact Hamount); try discriminate Hp.
  destruct (range_entries sf (conf t) amount (harvest.Entries res)
              counter entries) as [[[exit counter'] entries'] |] eqn:Hr;
    [| discriminate Hp].
  pose proof (range_entries_count _ _ _ _ _ _ _ _ _ Hr Hle) as Hle'.
  destruct exit.
  - destruct (harvest.NextPage res) as [page |].
    + destruct (pages_loop sf fuel t amount (S n)
                  (set_Page params (Some page)) counter' entries')
        as [o calls'] eqn:Hrec.
      injection Hp as -> _. exact (IH _ _ _ _ _ Hle' Hrec).
    + injection Hp as <- _ _ _. exact Hle'.
  - injection Hp as <- _ _ _. exact Hle'.
Qed.

(** What the page loop appends are dated entries of the remote source,
    as they were received. *)
Lemma pages_loop_kept (fuel n : nat) (params : harvest.TimeEntriesParams)
      (counter : gset string) (entries : harvest.TimeEntries)
      cnt es calls :
  pages_loop sf fuel t amount n params counter entries
  = (Returns (cnt, es, None), calls) ->
  exists kept, es = entries ++ kept /\ Forall (dated_remote_entry (harvest_ t)) kept.
Proof.
  revert n params counter entries calls.
  induction fuel as [| fuel IH]; intros n params counter entries calls Hp;
    simpl in Hp; [discriminate Hp |].
  destruct (harvest.GetTimeEntries (harvest_ t) n params)
    as [[res |] [e |]] eqn:Hget; try discriminate Hp.
  destruct (range_entries sf (conf t) amount (harvest.Entries res)
              counter entries) as [[[exit counter'] entries'] |] eqn:Hr;
    [| discriminate Hp].
  destruct (range_entries_kept _ _ _ _ _ _ _ _ _ Hr) as (kept & -> & Hkept).
  assert (Hremote : Forall (dated_remote_entry (harvest_ t)) kept).
  { eapply Forall_impl; [exact Hkept |]. intros e [Hin Hd].
    split; [| exact Hd]. exists n, params, res. split; assumption. }
  destruct exit.
  - destruct (harvest.NextPage res) as [page |].
    + destruct (pages_loop sf fuel t amount (S n)
                  (set_Page params (Some page)) counter' (entries ++ kept))
        as [o calls'] eqn:Hrec.
      injection Hp as -> _.
      destruct (IH _ _ _ _ _ Hrec) as (kept' & -> & Hkept').
      exists (kept ++ kept'). rewrite app_assoc. split; [reflexivity |].
      apply Forall_app. split; assumption.
    + injection Hp as _ <- _. eauto.
  - injection Hp as _ <- _. eauto.
Qed.



End CollectorRuns.

(** ** The claims on the collector *)





(** C2.  Whatever the amount, the start, the flag and the answers of
    the remote source: a count that [GetRecentDays] returns is at most
    [amount]. *)
Theorem GetRecentDays_count_le_amount
        (fuel : nat) (t : Timetracking) (amount : Z) (from : GoTime.Time)
        (actualDays : bool) cnt es err calls :
  GetRecentDays fuel t amount from actualDays
  = (Returns (cnt, es, err), calls) ->
  cnt <= amount.
Proof.
  unfold GetRecentDays. destruct (User t) as [u |]; [| discriminate].
  destruct (Z.ltb_spec amount 0) as [Hneg | Hpos]; [discriminate |].
  destruct actualDays.
  - destruct (placeholder_loop fuel fuel (conf t) amount from ∅ [])
      as [[counter entries] | p |] eqn:Hp; try discriminate.
    apply placeholder_loop_count in Hp. intros Hrun.
    apply pages_loop_count in Hrun; [exact Hrun | exact Hpos | lia].
  - intros Hrun.
    apply pages_loop_count in Hrun; [exact Hrun | exact Hpos |].
    rewrite size_empty. lia.
Qed.

(** One day is asked for; the source offers entries of three. *)
Lemma GetRecentDays_count_le_amount_witness :
  exists cnt es err calls,
    GetRecentDays 20 Sample.tracker 1 Sample.saturday false
    = (Returns (cnt, es, err), calls)
    /\ cnt <= 1.
Proof.
  exists 1, [Sample.entry Sample.saturday; Sample.entry (Sample.saturday - 1)],
    None, [Sample.first_request].
  assert (Hrun : GetRecentDays 20 Sample.tracker 1 Sample.saturday false
                 = (Returns (1, [Sample.entry Sample.saturday;
                                 Sample.entry (Sample.saturday - 1)], None),
                    [Sample.first_request]))
    by (vm_compute; reflexivity).
  split; [exact Hrun |].
  exact (GetRecentDays_count_le_amount _ _ _ _ _ _ _ _ _ Hrun).
Defined.

(** C3, at the input where the code departs from it.  With [amount] 0
    and [actualDays] set, [GetRecentDays] returns for no fuel: the
    placeholder loop tests [len(counter) == amount] only after it has
    counted a day.  (A negative [amount] ends in the panic of [make];
    [amount] 0 without [actualDays] returns the empty collection.) *)
Theorem GetRecentDays_zero_amount_never_returns
        (fuel : nat) (t : Timetracking) (from : GoTime.Time) r :
  fst (GetRecentDays fuel t 0 from true) <> Returns r.
Proof.
  unfold GetRecentDays. destruct (User t) as [u |]; [| discriminate].
  simpl. rewrite placeholder_loop_never by lia. discriminate.
Qed.

(** C4 as stated fails: an entry dated on the Saturday is retained with
    that date, and Saturday is not a workday. *)
Lemma GetRecentDays_keeps_dates_counterexample :
  GetRecentDays 20 Sample.tracker 1 Sample.saturday false
  = (Returns (1, [Sample.entry Sample.saturday;
                  Sample.entry (Sample.saturday - 1)], None),
     [Sample.first_request])
  /\ harvest.SpentDate (Sample.entry Sample.saturday)
     = Some (harvest.mkDate Sample.saturday)
  /\ IsNonWorkday Sample.validated Sample.saturday = true.
Proof. vm_compute. repeat split; reflexivity. Qed.

(** C4, amended.  [GetRecentDays] retains every dated entry of the
    remote source as it was received and uses the shifted date only as
    the key of its counter; what it adds itself are placeholders of
    workdays.  The stored date is overwritten by the key function of
    [GetRecentDaysGrouped]: an entry that function accepts leaves it
    with the shifted date, which is a workday, and is otherwise
    unchanged. *)
Theorem GetRecentDays_entries_as_received
        (fuel : nat) (t : Timetracking) (amount : Z) (from : GoTime.Time)
        (actualDays : bool) cnt es calls :
  GetRecentDays fuel t amount from actualDays
  = (Returns (cnt, es, None), calls) ->
  (forall e, e ∈ es ->
     (actualDays = true
      /\ exists d, e = placeholder d /\ IsNonWorkday (conf t) d = false)
     \/ (remote_entry (harvest_ t) e /\ harvest.SpentDate e <> None))
  /\ (forall groupBy groupFormat e e' key,
        group_key fuel (conf t) groupBy groupFormat e = Some (e', (key, true)) ->
        exists sd d,
          harvest.SpentDate e = Some sd
          /\ ShiftToWorkday fuel (conf t) (harvest.Time sd) = Some d
          /\ e' = set_SpentDate e (Some (harvest.mkDate d))
          /\ IsNonWorkday (conf t) d = false).
Proof.
  intros Hrun. split.
  - unfold GetRecentDays in Hrun.
    destruct (User t) as [u |]; [| discriminate Hrun].
    destruct (amount <? 0); [discriminate Hrun |].
    destruct actualDays.
    + destruct (placeholder_loop fuel fuel (conf t) amount from ∅ [])
        as [[counter entries] | p |] eqn:Hp; try discriminate Hrun.
      apply placeholder_loop_entries in Hp as (days & -> & Hdays).
      apply pages_loop_kept in Hrun as (kept & -> & Hkept).
      intros e He. apply elem_of_app in He as [He | He].
      * left. split; [reflexivity |]. simpl in He.
        apply list_elem_of_fmap in He as (d & -> & Hd).
        exists d. split; [reflexivity |].
        rewrite Forall_forall in Hdays. exact (Hdays _ Hd).
      * right. rewrite Forall_forall in Hkept. exact (Hkept _ He).
    + apply pages_loop_kept in Hrun as (kept & -> & Hkept).
      intros e He. right. simpl in He.
      rewrite Forall_forall in Hkept. exact (Hkept _ He).
  - intros groupBy groupFormat e e' key. unfold group_key.
    destruct (harvest.SpentDate e) as [sd |]; [| discriminate].
    destruct (ShiftToWorkday fuel (conf t) (harvest.Time sd)) as [d |] eqn:Hs;
      [| discriminate].
    intros Hkey. exists sd, d.
    destruct (ShiftToWorkday_spec _ _ _ _ Hs) as (_ & Hwd & _).
    split; [reflexivity |]. split; [exact Hs |].
    split; [| exact Hwd].
    destruct (String.eqb groupBy groupByWeek).
    + destruct (ISOWeek d). injection Hkey as <- _. reflexivity.
    + injection Hkey as <- _. reflexivity.
Qed.

(** The same run as in the counterexample: the entries returned are the
    first two of the page. *)
Lemma GetRecentDays_entries_as_received_witness :
  (forall e, e ∈ [Sample.entry Sample.saturday;
                  Sample.entry (Sample.saturday - 1)] ->
     (false = true
      /\ exists d, e = placeholder d
                   /\ IsNonWorkday (conf Sample.tracker) d = false)
     \/ (remote_entry (harvest_ Sample.tracker) e
         /\ harvest.SpentDate e <> None))
  /\ (forall groupBy groupFormat e e' key,
        group_key 20 (conf Sample.tracker) groupBy groupFormat e
        = Some (e', (key, true)) ->
        exists sd d,
          harvest.SpentDate e = Some sd
          /\ ShiftToWorkday 20 (conf Sample.tracker) (harvest.Time sd) = Some d
          /\ e' = set_SpentDate e (Some (harvest.mkDate d))
          /\ IsNonWorkday (conf Sample.tracker) d = false).
Proof.
  apply (GetRecentDays_entries_as_received 20 Sample.tracker 1
           Sample.saturday false 1 _ [Sample.first_request]).
  vm_compute. reflexivity.
Defined.

(** ** The claims on the entry points *)

(** C8.  A [groupBy] other than day, week, month and year makes
    [GetRecentDaysGrouped] return the count 0, a nil grouping and the
    invalid-group error; no request is sent, and neither the receiver
    nor the fuel matters, so the collector is not reached. *)
Theorem GetRecentDaysGrouped_invalid_group
        (fuel : nat) (t : Timetracking) (amount : Z) (from : GoTime.Time)
        (actualDays : bool) (groupBy : string) :
  groupBy <> groupByDay -> groupBy <> groupByWeek ->
  groupBy <> groupByMonth -> groupBy <> groupByYear ->
  GetRecentDaysGrouped fuel t amount from actualDays groupBy
  = (Returns (0, None, Some (ErrInvalidGroup groupBy)), []).
Proof.
  intros Hd Hw Hm Hy. unfold GetRecentDaysGrouped, groupFormat_of.
  apply String.eqb_neq in Hd, Hw, Hm, Hy.
  rewrite Hd, Hw, Hm, Hy. reflexivity.
Qed.

(** Grouping by decade, without a user and without fuel. *)
Lemma GetRecentDaysGrouped_invalid_group_witness :
  GetRecentDaysGrouped 0 Sample.tracker_no_user 5 Sample.saturday true "decade"
  = (Returns (0, None, Some (ErrInvalidGroup "decade")), []).
Proof.
  apply GetRecentDaysGrouped_invalid_group; discriminate.
Defined.

(** [New] leaves the user unset. *)
Lemma New_user_nil harvest_New forecast_New (c : Config) (t : Timetracking) err :
  New harvest_New forecast_New c = (Some t, err) -> user t = None.
Proof.
  unfold New. destruct (Atoi (AccountID c)); [| discriminate].
  destruct (if String.eqb (ForecastAccountID c) "" then Some 0
            else Atoi (ForecastAccountID c)); [| discriminate].
  intros H. injection H as <- _. reflexivity.
Qed.

(** [SetUID] replaces the stored user by the pointer the client
    returns, nil when the client returns none with its error. *)
Lemma SetUID_user (t t' : Timetracking) (uid : Z) err :
  SetUID t uid = (t', err) ->
  (user t', err)
  = (if uid =? 0 then harvest.GetMe (harvest_ t)
     else harvest.GetUser (harvest_ t) uid).
Proof.
  unfold SetUID. destruct (uid =? 0); simpl.
  - destruct (harvest.GetMe (harvest_ t)) as [u e].
    intros H. injection H as <- <-. reflexivity.
  - destruct (harvest.GetUser (harvest_ t) uid) as [u e].
    intros H. injection H as <- <-. reflexivity.
Qed.

(** C9.  Without a stored user [GetRecentDays] ends in a nil pointer
    dereference before it sends a request, whatever its arguments, and
    so does [GetRecentDaysGrouped] once its [groupBy] is accepted. *)
Theorem GetRecentDays_without_user (t : Timetracking) :
  user t = None ->
  (forall fuel amount from actualDays,
     GetRecentDays fuel t amount from actualDays
     = (Panics NilPointerDereference, []))
  /\ (forall fuel amount from actualDays groupBy,
        groupFormat_of groupBy <> None ->
        GetRecentDaysGrouped fuel t amount from actualDays groupBy
        = (Panics NilPointerDereference, [])).
Proof.
  intros Hnil.
  assert (Hrun : forall fuel amount from actualDays,
            GetRecentDays fuel t amount from actualDays
            = (Panics NilPointerDereference, [])).
  { intros. unfold GetRecentDays, User. rewrite Hnil. reflexivity. }
  split; [exact Hrun |].
  intros fuel amount from actualDays groupBy Hgroup.
  unfold GetRecentDaysGrouped.
  destruct (groupFormat_of groupBy); [| congruence].
  rewrite Hrun. reflexivity.
Qed.

(** A receiver on which [SetUID] failed last. *)
Lemma GetRecentDays_without_user_witness :
  (forall fuel amount from actualDays,
     GetRecentDays fuel (fst (SetUID Sample.tracker_down 0)) amount from
       actualDays
     = (Panics NilPointerDereference, []))
  /\ (forall fuel amount from actualDays groupBy,
        groupFormat_of groupBy <> None ->
        GetRecentDaysGrouped fuel (fst (SetUID Sample.tracker_down 0))
          amount from actualDays groupBy
        = (Panics NilPointerDereference, [])).
Proof.
  apply (GetRecentDays_without_user (fst (SetUID Sample.tracker_down 0))).
  reflexivity.
Defined.

Lemma find_project_id_last (projectName : string)
      (ps : list forecast.Project) :
  find_project_id projectName ps = last_match_id projectName ps.
Proof.
  unfold find_project_id, last_match_id, matching.
  induction ps as [| p ps IH] using rev_ind; [reflexivity |].
  rewrite fold_left_app, filter_app. simpl fold_left.
  rewrite filter_cons, filter_nil.
  destruct (String.eqb_spec (forecast.Name p) projectName) as [Heq | Hne].
  - rewrite decide_True by exact Heq. rewrite last_snoc. reflexivity.
  - rewrite decide_False by exact Hne. rewrite app_nil_r. exact IH.
Qed.

(** C10.  With a forecast user set and the project listing fetched,
    the identifier of the last project of that name is the one looked
    up: when it is 0 (no project of that name, or the last of them has
    the identifier 0) the call returns the not-found error and does
    not ask for assignments; otherwise it asks for the assignments of
    that identifier and the forecast user, and returns the answer. *)
Theorem GetAssignmentsByName_last_match
        (t : Timetracking) (fu : forecast.User) (ps : forecast.Projects)
        (projectName : string) :
  forecastUser t = Some fu -> forecast.ID fu <> 0 ->
  forecast.GetProjects (forecast_ t) = (Some ps, None) ->
  let id := last_match_id projectName (forecast.ProjectList ps) in
  let params :=
    {| forecast.ParamProjectID := Some id;
       forecast.ParamPersonID := Some (forecast.ID fu) |} in
  (id = 0 <->
   matching projectName (forecast.ProjectList ps) = []
   \/ exists p, last (matching projectName (forecast.ProjectList ps)) = Some p
                /\ forecast.ProjectID p = 0)
  /\ (id = 0 ->
      GetAssignmentsByName t projectName
      = (Returns ([], Some (ErrProjectNotFound projectName)),
         [CallGetProjects]))
  /\ (id <> 0 ->
      GetAssignmentsByName t projectName
      = (match forecast.GetAssignments (forecast_ t) params with
         | (_, Some err) => Returns ([], Some err)
         | (None, None) => Panics NilPointerDereference
         | (Some asg, None) => Returns (forecast.AssignmentList asg, None)
         end,
         [CallGetProjects; CallGetAssignments params])).
Proof.
  intros Hfu Hid Hps id params. subst params.
  split; [| split].
  - subst id. unfold last_match_id.
    destruct (last (matching projectName (forecast.ProjectList ps)))
      as [p |] eqn:Hlast; simpl.
    + split.
      * intros Hz. right. exists p. split; [reflexivity | exact Hz].
      * intros [Hnil | (p' & Hp' & Hz)].
        -- rewrite Hnil in Hlast. discriminate Hlast.
        -- injection Hp' as <-. exact Hz.
    + split; [| reflexivity]. intros _. left.
      apply last_None. exact Hlast.
  - intros Hz. unfold GetAssignmentsByName. rewrite Hfu.
    rewrite (proj2 (Z.eqb_neq _ _) Hid), Hps.
    rewrite find_project_id_last. fold id. rewrite Hz. reflexivity.
  - intros Hnz. unfold GetAssignmentsByName. rewrite Hfu.
    rewrite (proj2 (Z.eqb_neq _ _) Hid), Hps.
    rewrite find_project_id_last. fold id.
    rewrite (proj2 (Z.eqb_neq _ _) Hnz).
    destruct (forecast.GetAssignments (forecast_ t)
                {| forecast.ParamProjectID := Some id;
                   forecast.ParamPersonID := Some (forecast.ID fu) |})
      as [[asg |] [e |]]; reflexivity.
Qed.

(** In the sample listing "alpha" names the projects 1 and 3, and
    "gamma" the project 0. *)
Lemma GetAssignmentsByName_last_match_witness :
  let id := last_match_id "alpha" Sample.projects in
  let params :=
    {| forecast.ParamProjectID := Some id;
       forecast.ParamPersonID := Some 9 |} in
  (id = 0 <->
   matching "alpha" Sample.projects = []
   \/ exists p, last (matching "alpha" Sample.projects) = Some p
                /\ forecast.ProjectID p = 0)
  /\ (id = 0 ->
      GetAssignmentsByName Sample.tracker "alpha"
      = (Returns ([], Some (ErrProjectNotFound "alpha")), [CallGetProjects]))
  /\ (id <> 0 ->
      GetAssignmentsByName Sample.tracker "alpha"
      = (match forecast.GetAssignments Sample.forecast_client params with
         | (_, Some err) => Returns ([], Some err)
         | (None, None) => Panics NilPointerDereference
         | (Some asg, None) => Returns (forecast.AssignmentList asg, None)
         end,
         [CallGetProjects; CallGetAssignments params])).
Proof.
  apply (GetAssignmentsByName_last_match Sample.tracker
           {| forecast.ID := 9 |}
           {| forecast.ProjectList := Sample.projects |} "alpha").
  - reflexivity.
  - simpl. lia.
  - reflexivity.
Defined.

(** The sample runs of the lookup: the later "alpha" wins, and the
    name of the project with identifier 0 is reported as not found. *)
Example GetAssignmentsByName_samples :
  GetAssignmentsByName Sample.tracker "alpha"
  = (Returns ([ {| forecast.AssignmentID := 3 |} ], None),
     [CallGetProjects;
      CallGetAssignments {| forecast.ParamProjectID := Some 3;
                            forecast.ParamPersonID := Some 9 |}])
  /\ GetAssignmentsByName Sample.tracker "gamma"
     = (Returns ([], Some (ErrProjectNotFound "gamma")), [CallGetProjects])
  /\ GetAssignmentsByName Sample.tracker "delta"
     = (Returns ([], Some (ErrProjectNotFound "delta")), [CallGetProjects]).
Proof. vm_compute. repeat split; reflexivity. Qed.

(** The degenerate amounts on the sample source: 0 without
    [actualDays] gives the empty collection, 0 with [actualDays] uses
    up any fuel, a negative amount panics in [make]. *)
Example GetRecentDays_degenerate_samples :
  GetRecentDays 20 Sample.tracker 0 Sample.saturday false
  = (Returns (0, [], None), [Sample.first_request])
  /\ GetRecentDays 20 Sample.tracker 0 Sample.saturday true = (OutOfFuel, [])
  /\ GetRecentDays 20 Sample.tracker (-1) Sample.saturday false
     = (Panics MakesliceCapOutOfRange, []).
Proof. vm_compute. repeat split; reflexivity. Qed.

(** The scenario of the specification: the excluded 2018-11-01 shifts
    to Wednesday 2018-10-31, Saturday 2018-11-24 to Friday 2018-11-23. *)
Example ShiftToWorkday_scenario :
  ShiftToWorkday 14 Sample.validated (Date 2018 11 1) = Some (Date 2018 10 31)
  /\ Weekday_of (Date 2018 10 31) = Wednesday
  /\ ShiftToWorkday 14 Sample.validated Sample.saturday = Some (Date 2018 11 23)
  /\ Weekday_of (Date 2018 11 23) = Friday
  /\ Format (Date 2018 11 23) dateFormat = "2018-11-23"%string.
Proof. vm_compute. repeat split; reflexivity. Qed.

(** * Further properties of the code *)

(** ** The configuration after [Validate] *)

Lemma named_off_spec (vs : list string) (w : Weekday) :
  named_off vs w = true
  <-> exists v, v ∈ vs /\ ToLower v = ToLower (weekday_String w).
Proof.
  unfold named_off. rewrite existsb_exists. split.
  - intros (v & Hin & Heq). exists v. split.
    + apply list_elem_of_In. exact Hin.
    + apply String.eqb_eq. exact Heq.
  - intros (v & Hin & Heq). exists v. split.
    + apply list_elem_of_In. exact Hin.
    + apply String.eqb_eq. exact Heq.
Qed.

(** What a successful [Validate] stores: the listed strings as
    [excludedMap], the named weekdays as [weekdaysOffMap]; the lists
    themselves are kept. *)
Lemma Validate_ok_maps (c c' : Config) :
  Validate c = (c', None) ->
  excludedMap c' = list_to_set (ExcludedDates c)
  /\ (forall w, w ∈ weekdaysOffMap c' <-> named_off (WeekdaysOff c) w = true)
  /\ (forall v, v ∈ ExcludedDates c -> Parse dateFormat v <> None)
  /\ ExcludedDates c' = ExcludedDates c
  /\ WeekdaysOff c' = WeekdaysOff c.
Proof.
  unfold Validate.
  pose proof (validate_excluded_keys (ExcludedDates c) ∅) as Hkeys.
  pose proof (validate_excluded_error (ExcludedDates c) ∅) as Hex.
  pose proof (fun w => validate_weekdays_elem (WeekdaysOff c) ∅ w) as Hel.
  destruct (validate_excluded (ExcludedDates c) ∅) as [em [e |]];
    [intros H; discriminate H |].
  simpl in *.
  destruct (validate_weekdays (WeekdaysOff c) ∅) as [wm [e |]];
    [intros H; discriminate H |].
  simpl in *.
  destruct (6 <? Z.of_nat (size wm)); intros H; [discriminate H |].
  injection H as <-. simpl.
  split; [rewrite (Hkeys eq_refl); set_solver |].
  split.
  { intros w. rewrite (Hel w eq_refl), named_off_spec. split.
    - intros [Hempty | Hn]; [| exact Hn].
      exfalso. exact (not_elem_of_empty w Hempty).
    - intros Hn. right. exact Hn. }
  split; [| split; reflexivity].
  intros v Hin Hnone. apply (proj2 Hex); [| reflexivity]. eauto.
Qed.





(** X (Validate again).  [Validate] rebuilds both tables from the
    lists alone: validating a configuration that passed gives the same
    configuration and passes again, whatever the tables held before. *)
Theorem Validate_idempotent (c c' : Config) :
  Validate c = (c', None) -> Validate c' = (c', None).
Proof.
  intros Hv.
  assert (Hlists : ExcludedDates c' = ExcludedDates c
                   /\ WeekdaysOff c' = WeekdaysOff c)
    by (destruct (Validate_ok_maps _ _ Hv) as (_ & _ & _ & H1 & H2); auto).
  destruct Hlists as [Hex Hwd].
  revert Hv. unfold Validate. rewrite Hex. simpl WeekdaysOff.
  destruct (validate_excluded (ExcludedDates c) ∅) as [em [e |]];
    [intros H; discriminate H |].
  simpl WeekdaysOff. rewrite Hwd.
  destruct (validate_weekdays (WeekdaysOff c) ∅) as [wm [e |]];
    [intros H; discriminate H |].
  destruct (6 <? Z.of_nat (size wm)); intros H; [discriminate H |].
  injection H as <-. reflexivity.
Qed.

Lemma Validate_idempotent_witness :
  Validate Sample.validated = (Sample.validated, None).
Proof.
  apply (Validate_idempotent Sample.config). vm_compute. reflexivity.
Defined.

(** ** Dates that parse are written back as they were read *)

Section ParseFormat.

Local Ltac div_lia := Z.div_mod_to_equations; lia.

Lemma yoe_exact (yoe doy : Z) :
  0 <= yoe < 400 -> 0 <= doy ->
  365 * yoe + yoe / 4 - yoe / 100 + doy
  < 365 * (yoe + 1) + (yoe + 1) / 4 - (yoe + 1) / 100
    + (if yoe =? 399 then 1 else 0) ->
  let doe := 365 * yoe + yoe / 4 - yoe / 100 + doy in
  (doe - doe / 1460 + doe / 36524 - doe / 146096) / 365 = yoe.
Proof.
  intros Hy Hd Hlt. cbv zeta.
  destruct (Z.eqb_spec yoe 399) as [-> | Hne]; div_lia.
Qed.

Lemma mp_exact (mp d : Z) :
  0 <= mp <= 11 -> 1 <= d ->
  (153 * mp + 2) / 5 + d - 1 < (153 * (mp + 1) + 2) / 5 ->
  (5 * ((153 * mp + 2) / 5 + d - 1) + 2) / 153 = mp.
Proof. intros Hmp Hd Hlt. div_lia. Qed.

(** Within an era: a day of a month, inside the month and inside the
    year, is found again from its day of the era. *)
Lemma civil_of_doe_of_civil (yoe m d : Z) :
  0 <= yoe < 400 -> 1 <= m <= 12 -> 1 <= d ->
  (153 * (if 2 <? m then m - 3 else m + 9) + 2) / 5 + d - 1
  < (153 * ((if 2 <? m then m - 3 else m + 9) + 1) + 2) / 5 ->
  365 * yoe + yoe / 4 - yoe / 100
  + ((153 * (if 2 <? m then m - 3 else m + 9) + 2) / 5 + d - 1)
  < 365 * (yoe + 1) + (yoe + 1) / 4 - (yoe + 1) / 100
    + (if yoe =? 399 then 1 else 0) ->
  civil_of_doe (doe_of_civil yoe m d) = (yoe, m, d)
  /\ 0 <= doe_of_civil yoe m d < era_days.
Proof.
  intros Hy Hm Hd Hmonth Hyear.
  unfold doe_of_civil.
  set (mp := if 2 <? m then m - 3 else m + 9) in *.
  assert (Hmp : 0 <= mp <= 11 /\ m = if mp <? 10 then mp + 3 else mp - 9).
  { subst mp. destruct (Z.ltb_spec 2 m).
    - destruct (Z.ltb_spec (m - 3) 10); lia.
    - destruct (Z.ltb_spec (m + 9) 10); lia. }
  destruct Hmp as [Hmp Hmeq].
  set (doy := (153 * mp + 2) / 5 + d - 1) in *.
  assert (Hdoy : 0 <= doy) by (subst doy; div_lia).
  replace (yoe * 365 + yoe / 4 - yoe / 100 + doy)
    with (365 * yoe + yoe / 4 - yoe / 100 + doy) by lia.
  split.
  - unfold civil_of_doe.
    pose proof (yoe_exact yoe doy Hy Hdoy Hyear) as Hyoe. cbv zeta in Hyoe.
    rewrite Hyoe.
    replace (365 * yoe + yoe / 4 - yoe / 100 + doy
             - (365 * yoe + yoe / 4 - yoe / 100)) with doy by lia.
    subst doy. rewrite (mp_exact mp d Hmp Hd Hmonth).
    rewrite <- Hmeq. f_equal. lia.
  - unfold era_days. destruct (Z.eqb_spec yoe 399); div_lia.
Qed.

(** A date of the calendar is found again from its day number. *)
Lemma Date_of_days_from_civil (y m d : Z) :
  1 <= m <= 12 -> 1 <= d <= daysIn m y ->
  Date_of (days_from_civil y m d) = (y, m, d).
Proof.
  intros Hm Hd.
  unfold Date_of, days_from_civil.
  set (y' := if m <=? 2 then y - 1 else y).
  assert (Hyoe : 0 <= y' mod 400 < 400) by (apply Z.mod_pos_bound; lia).
  assert (Hy : y = y' + (if m <=? 2 then 1 else 0))
    by (subst y'; destruct (m <=? 2); lia).
  assert (Hmonth :
            (153 * (if 2 <? m then m - 3 else m + 9) + 2) / 5 + d - 1
            < (153 * ((if 2 <? m then m - 3 else m + 9) + 1) + 2) / 5
            /\ 365 * (y' mod 400) + (y' mod 400) / 4 - (y' mod 400) / 100
               + ((153 * (if 2 <? m then m - 3 else m + 9) + 2) / 5 + d - 1)
               < 365 * (y' mod 400 + 1) + (y' mod 400 + 1) / 4
                 - (y' mod 400 + 1) / 100
                 + (if y' mod 400 =? 399 then 1 else 0)).
  { assert (Hcases : m = 1 \/ m = 2 \/ m = 3 \/ m = 4 \/ m = 5 \/ m = 6
                     \/ m = 7 \/ m = 8 \/ m = 9 \/ m = 10 \/ m = 11 \/ m = 12)
      by lia.
    clear Hy.
    destruct Hcases as [-> | [-> | [-> | [-> | [-> | [-> | [-> | [-> | [-> |
                       [-> | [-> | ->]]]]]]]]]]];
      subst y'; simpl in Hd |- *;
      try (destruct (Z.eqb_spec ((y - 1) mod 400) 399); split; div_lia);
      try (destruct (Z.eqb_spec (y mod 400) 399); split; div_lia).
    unfold isLeap in Hd.
    destruct (Z.eqb_spec (y mod 4) 0); destruct (Z.eqb_spec (y mod 100) 0);
      destruct (Z.eqb_spec (y mod 400) 0); simpl in Hd;
      destruct (Z.eqb_spec ((y - 1) mod 400) 399); split; div_lia. }
  destruct Hmonth as [Hmonth Hyear].
  destruct (civil_of_doe_of_civil (y' mod 400) m d Hyoe Hm ltac:(lia)
              Hmonth Hyear) as [Hcivil Hdoe].
  replace (y' / 400 * era_days + doe_of_civil (y' mod 400) m d
           - epoch_shift + epoch_shift)
    with (doe_of_civil (y' mod 400) m d + y' / 400 * era_days) by lia.
  rewrite Z.mod_add, Z.div_add by (unfold era_days; lia).
  rewrite (Z.mod_small _ era_days), (Z.div_small _ era_days) by exact Hdoe.
  rewrite Hcivil. f_equal. f_equal.
  pose proof (Z.div_mod y' 400 ltac:(lia)). lia.
Qed.

Lemma digit_digit_val (a : ascii) :
  isDigit a = true -> digit (digit_val a) = a /\ 0 <= digit_val a <= 9.
Proof.
  destruct a as [b0 b1 b2 b3 b4 b5 b6 b7].
  destruct b0, b1, b2, b3, b4, b5, b6, b7;
    intros H; try discriminate H; split; vm_compute;
    try reflexivity; split; discriminate.
Qed.

Lemma digits_w_2 (a b : Z) :
  0 <= a <= 9 -> 0 <= b <= 9 ->
  digits_w 2 (10 * a + b) = [digit a; digit b].
Proof.
  intros Ha Hb. simpl.
  replace ((10 * a + b) / 10 mod 10) with a by div_lia.
  replace ((10 * a + b) mod 10) with b by div_lia.
  reflexivity.
Qed.

Lemma digits_w_4 (a b c e : Z) :
  0 <= a <= 9 -> 0 <= b <= 9 -> 0 <= c <= 9 -> 0 <= e <= 9 ->
  digits_w 4 (1000 * a + 100 * b + 10 * c + e)
  = [digit a; digit b; digit c; digit e].
Proof.
  intros Ha Hb Hc He. simpl.
  replace ((1000 * a + 100 * b + 10 * c + e) / 10 / 10 / 10 mod 10)
    with a by div_lia.
  replace ((1000 * a + 100 * b + 10 * c + e) / 10 / 10 mod 10)
    with b by div_lia.
  replace ((1000 * a + 100 * b + 10 * c + e) / 10 mod 10) with c by div_lia.
  replace ((1000 * a + 100 * b + 10 * c + e) mod 10) with e by div_lia.
  reflexivity.
Qed.

Lemma skip_char (l r : list ascii) (x : ascii) :
  skip l [x] = Some r -> l = x :: r.
Proof.
  destruct l as [| v l]; simpl; [discriminate |].
  destruct (Ascii.eqb_spec v x) as [-> | _]; [| discriminate].
  destruct l; simpl; intros H; injection H as <-; reflexivity.
Qed.

(** What [Parse] accepts for [dateFormat]: four digits, a dash, two
    digits of a month in the year, a dash, two digits. *)
Lemma parse_dateFormat_inv (l : list ascii) (y m d : Z) :
  parse_chunks dateFormat l 0 1 1 = Some (y, m, d) ->
  exists a b c e f g h i,
    l = [a; b; c; e; "-"; f; g; "-"; h; i]%char
    /\ (isDigit a = true /\ isDigit b = true /\ isDigit c = true
        /\ isDigit e = true /\ isDigit f = true /\ isDigit g = true
        /\ isDigit h = true /\ isDigit i = true)
    /\ y = 1000 * digit_val a + 100 * digit_val b + 10 * digit_val c
           + digit_val e
    /\ m = 10 * digit_val f + digit_val g
    /\ d = 10 * digit_val h + digit_val i
    /\ 1 <= m <= 12.
Proof.
  unfold dateFormat. intros H. cbn [parse_chunks] in H.
  repeat match type of H with
         | context [match ?x with _ => _ end] =>
             destruct x eqn:?; try discriminate H
         end.
  subst. injection H as <- <- <-.
  repeat match goal with
         | Hs : skip _ [_] = Some _ |- _ => apply skip_char in Hs; subst
         | Hb : _ && _ = true |- _ => apply andb_true_iff in Hb as [? ?]
         | Hb : _ || _ = false |- _ => apply orb_false_iff in Hb as [? ?]
         | Hb : (_ <=? _) = false |- _ => apply Z.leb_gt in Hb
         | Hb : (_ <? _) = false |- _ => apply Z.ltb_ge in Hb
         end.
  do 8 eexists. split; [reflexivity |].
  repeat split; try assumption; lia.
Qed.

(** A string that [Parse] accepts for [dateFormat] is the text that
    [Format] writes for the date it stands for. *)
Lemma Parse_dateFormat_Format (v : string) (t : Z) :
  Parse dateFormat v = Some t -> Format t dateFormat = v.
Proof.
  unfold Parse, Format.
  destruct (parse_chunks dateFormat (list_ascii_of_string v) 0 1 1)
    as [[[y m] d] |] eqn:Hp; [| discriminate].
  destruct (parse_dateFormat_inv _ _ _ _ Hp)
    as (a & b & c & e & f & g & h & i & Hl
        & (Da & Db & Dc & De & Df & Dg & Dh & Di) & Hy & Hm & Hd & Hmr).
  destruct (Z.ltb_spec d 1) as [_ | Hd1]; [discriminate |].
  destruct (Z.ltb_spec (daysIn m y) d) as [_ | Hd2]; [discriminate |].
  simpl. intros Ht. injection Ht as <-.
  destruct (digit_digit_val a Da) as [Ea Ra].
  destruct (digit_digit_val b Db) as [Eb Rb].
  destruct (digit_digit_val c Dc) as [Ec Rc].
  destruct (digit_digit_val e De) as [Ee Re].
  destruct (digit_digit_val f Df) as [Ef Rf].
  destruct (digit_digit_val g Dg) as [Eg Rg].
  destruct (digit_digit_val h Dh) as [Eh Rh].
  destruct (digit_digit_val i Di) as [Ei Ri].
  assert (Hdate : Date y m d = days_from_civil y m d).
  { unfold Date. rewrite (Z.div_small (m - 1) 12) by lia.
    rewrite (Z.mod_small (m - 1) 12) by lia.
    f_equal; lia. }
  rewrite Hdate.
  assert (Hof : Date_of (days_from_civil y m d) = (y, m, d))
    by (apply Date_of_days_from_civil; lia).
  rewrite (format_dateFormat _ _ _ _ Hof).
  rewrite (appendInt_fixed y 4) by (simpl; lia).
  rewrite Hy, Hm, Hd.
  rewrite digits_w_4, !digits_w_2 by lia.
  rewrite Ea, Eb, Ec, Ee, Ef, Eg, Eh, Ei.
  rewrite <- (string_of_list_ascii_of_string v), Hl. reflexivity.
Qed.

End ParseFormat.

(** ** [Excluded] and the shift, on the code's own terms *)

(** X (Excluded).  On a configuration that passed [Validate],
    [Excluded] holds of a date exactly when one of the strings of
    [ExcludedDates] parses to that date: the table is keyed by the
    strings as they were written, and a string that parses is the
    text [Format] writes for its date. *)
Theorem Excluded_validated (c c' : Config) (t : GoTime.Time) :
  Validate c = (c', None) ->
  Excluded c' t = true
  <-> exists v, v ∈ ExcludedDates c /\ Parse dateFormat v = Some t.
Proof.
  intros Hv. destruct (Validate_ok_maps _ _ Hv) as (Hmap & _ & Hparse & _).
  unfold Excluded. rewrite bool_decide_eq_true, Hmap, elem_of_list_to_set.
  split.
  - intros Hin. exists (Format t dateFormat). split; [exact Hin |].
    destruct (Parse dateFormat (Format t dateFormat)) as [t' |] eqn:Hp.
    + apply Parse_dateFormat_Format in Hp.
      apply Format_dateFormat_inj in Hp. congruence.
    + exfalso. exact (Hparse _ Hin Hp).
  - intros (v & Hin & Hp). apply Parse_dateFormat_Format in Hp.
    rewrite Hp. exact Hin.
Qed.

Lemma Excluded_validated_witness :
  Excluded Sample.validated (Date 2018 11 1) = true
  <-> exists v, v ∈ ExcludedDates Sample.config
                /\ Parse dateFormat v = Some (Date 2018 11 1).
Proof.
  apply (Excluded_validated Sample.config Sample.validated).
  vm_compute. reflexivity.
Defined.





Lemma ShiftToWorkday_monotone' (c : Config) (fuel1 fuel2 : nat)
      (d1 d2 r1 r2 : Z) :
  ShiftToWorkday fuel1 c d1 = Some r1 ->
  ShiftToWorkday fuel2 c d2 = Some r2 ->
  d1 <= d2 -> r1 <= r2.
Proof.
  intros H1 H2 Hle.
  destruct (ShiftToWorkday_spec _ _ _ _ H1) as (Hle1 & Hwd1 & _).
  destruct (ShiftToWorkday_spec _ _ _ _ H2) as (Hle2 & _ & Hbetween).
  destruct (Z.le_gt_cases r1 r2) as [Hok | Hgt]; [exact Hok |].
  rewrite (Hbetween r1 ltac:(lia)) in Hwd1. discriminate Hwd1.
Qed.

(** X (order).  The shift keeps the order of dates: whenever the loop
    returns for two starts, the earlier start gives the earlier or the
    same workday.  An entry thus never overtakes a later one. *)
Theorem ShiftToWorkday_monotone (c : Config) (fuel1 fuel2 : nat)
        (d1 d2 r1 r2 : GoTime.Time) :
  ShiftToWorkday fuel1 c d1 = Some r1 ->
  ShiftToWorkday fuel2 c d2 = Some r2 ->
  d1 <= d2 -> r1 <= r2.
Proof. exact (ShiftToWorkday_monotone' c fuel1 fuel2 d1 d2 r1 r2).
Qed.

(** Thursday 2018-11-01 is excluded and the Saturday after it is off:
    they shift to the Wednesday and to the Friday. *)
Lemma ShiftToWorkday_monotone_witness :
  ShiftToWorkday 14 Sample.validated (Date 2018 11 1)
  = Some (Date 2018 10 31)
  /\ ShiftToWorkday 14 Sample.validated (Date 2018 11 3)
     = Some (Date 2018 11 2)
  /\ Date 2018 10 31 <= Date 2018 11 2.
Proof.
  assert (H1 : ShiftToWorkday 14 Sample.validated (Date 2018 11 1)
               = Some (Date 2018 10 31)) by (vm_compute; reflexivity).
  assert (H2 : ShiftToWorkday 14 Sample.validated (Date 2018 11 3)
               = Some (Date 2018 11 2)) by (vm_compute; reflexivity).
  split; [exact H1 |]. split; [exact H2 |].
  apply (ShiftToWorkday_monotone Sample.validated 14 14
           (Date 2018 11 1) (Date 2018 11 3) _ _ H1 H2).
  vm_compute. discriminate.
Defined.

(** ** The collector: errors, requests and the meaning of the count *)

Section CollectorFacts.

Variable sf : nat.
Variable t : Timetracking.
Variable amount : Z.

(** An error ends the page loop with nothing but the error, and the
    error is the answer to the last request sent. *)
Lemma pages_loop_error (fuel n : nat) (params : harvest.TimeEntriesParams)
      (counter : gset string) (entries : harvest.TimeEntries)
      cnt es e calls :
  pages_loop sf fuel t amount n params counter entries
  = (Returns (cnt, es, Some e), calls) ->
  cnt = 0 /\ es = []
  /\ exists rest p o,
      calls = rest ++ [CallGetTimeEntries p]
      /\ harvest.GetTimeEntries (harvest_ t) (n + length rest) p
         = (o, Some e).
Proof.
  revert n params counter entries calls.
  induction fuel as [| fuel IH]; intros n params counter entries calls Hp;
    simpl in Hp; [discriminate Hp |].
  destruct (harvest.GetTimeEntries (harvest_ t) n params)
    as [[res |] [e' |]] eqn:Hget; try discriminate Hp.
  - injection Hp as <- <- <- <-. split; [reflexivity |].
    split; [reflexivity |]. exists [], params, (Some res).
    rewrite Nat.add_0_r. split; [reflexivity | exact Hget].
  - destruct (range_entries sf (conf t) amount (harvest.Entries res)
                counter entries) as [[[exit counter'] entries'] |];
      [| discriminate Hp].
    destruct exit; [| discriminate Hp].
    destruct (harvest.NextPage res) as [page |]; [| discriminate Hp].
    destruct (pages_loop sf fuel t amount (S n)
                (set_Page params (Some page)) counter' entries')
      as [o calls'] eqn:Hrec.
    injection Hp as -> <-.
    destruct (IH _ _ _ _ _ Hrec) as (Hc & He & rest & p & o & -> & Hans).
    split; [exact Hc |]. split; [exact He |].
    exists (CallGetTimeEntries params :: rest), p, o.
    split; [reflexivity |]. simpl length.
    rewrite Nat.add_succ_r. exact Hans.
  - injection Hp as <- <- <- <-. split; [reflexivity |].
    split; [reflexivity |]. exists [], params, None.
    rewrite Nat.add_0_r. split; [reflexivity | exact Hget].
Qed.

(** The requests of the page loop follow the next-page tokens, and
    there are no more of them than passes of the loop. *)
Lemma pages_loop_requests (fuel n : nat) (params : harvest.TimeEntriesParams)
      (counter : gset string) (entries : harvest.TimeEntries) o calls :
  pages_loop sf fuel t amount n params counter entries = (o, calls) ->
  follows_pages (harvest_ t) n params calls
  /\ (length calls <= fuel)%nat.
Proof.
  revert n params counter entries o calls.
  induction fuel as [| fuel IH]; intros n params counter entries o calls Hp;
    simpl in Hp.
  - injection Hp as _ <-. simpl. split; [exact I | lia].
  - destruct (harvest.GetTimeEntries (harvest_ t) n params)
      as [[res |] [e' |]] eqn:Hget;
      try (injection Hp as _ <-; simpl; split; [tauto | lia]).
    destruct (range_entries sf (conf t) amount (harvest.Entries res)
                counter entries) as [[[exit counter'] entries'] |];
      [| injection Hp as _ <-; simpl; split; [tauto | lia]].
    destruct exit; [| injection Hp as _ <-; simpl; split; [tauto | lia]].
    destruct (harvest.NextPage res) as [page |] eqn:Hnext;
      [| injection Hp as _ <-; simpl; split; [tauto | lia]].
    destruct (pages_loop sf fuel t amount (S n)
                (set_Page params (Some page)) counter' entries')
      as [o' calls'] eqn:Hrec.
    injection Hp as _ <-.
    destruct (IH _ _ _ _ _ _ Hrec) as [Hchain Hlen].
    split; [| simpl; lia].
    simpl. split; [reflexivity |].
    destruct calls' as [| call calls']; [exact I |].
    exists res, page. split; [exact Hget |]. split; [exact Hnext |].
    exact Hchain.
Qed.

End CollectorFacts.

(** Every request of a chain keeps the user and the date bound of the
    first. *)
Lemma follows_pages_same_filter (h : harvest.Harvest) (calls : list Call) :
  forall n p,
    follows_pages h n p calls ->
    Forall (fun call => exists q, call = CallGetTimeEntries q
                                  /\ harvest.UserID q = harvest.UserID p
                                  /\ harvest.To q = harvest.To p) calls.
Proof.
  induction calls as [| call calls IH]; intros n p Hchain; [constructor |].
  destruct Hchain as [-> Hrest]. constructor.
  - exists p. repeat split.
  - destruct calls as [| call' calls']; [constructor |].
    destruct Hrest as (res & page & _ & _ & Hchain).
    exact (IH _ _ Hchain).
Qed.

(** X (no partial result).  When [GetRecentDays] returns an error it
    returns the count 0 and a nil collection, whatever it had
    collected, and the error is the one the remote source gave to the
    last request. *)
Theorem GetRecentDays_error_no_partial
        (fuel : nat) (t : Timetracking) (amount : Z) (from : GoTime.Time)
        (actualDays : bool) cnt es e calls :
  GetRecentDays fuel t amount from actualDays
  = (Returns (cnt, es, Some e), calls) ->
  cnt = 0 /\ es = []
  /\ exists rest p o,
      calls = rest ++ [CallGetTimeEntries p]
      /\ harvest.GetTimeEntries (harvest_ t) (length rest) p = (o, Some e).
Proof.
  unfold GetRecentDays. destruct (User t) as [u |]; [| discriminate].
  destruct (amount <? 0); [discriminate |].
  destruct (if actualDays
            then placeholder_loop fuel fuel (conf t) amount from ∅ []
            else Returns (∅, [])) as [[counter entries] | p |];
    try discriminate.
  intros Hrun. apply pages_loop_error in Hrun. exact Hrun.
Qed.

Lemma GetRecentDays_error_no_partial_witness :
  0 = 0 /\ @nil harvest.TimeEntry = []
  /\ exists rest p o,
      [Sample.first_request] = rest ++ [CallGetTimeEntries p]
      /\ harvest.GetTimeEntries (harvest_ Sample.tracker_down)
           (length rest) p = (o, Some (ErrRemote 503)).
Proof.
  apply (GetRecentDays_error_no_partial 20 Sample.tracker_down 3
           Sample.saturday true).
  vm_compute. reflexivity.
Defined.

(** X (requests).  The requests [GetRecentDays] sends form one chain:
    the first asks for the entries of the stored user up to [from]
    with no page, every later one asks for the next page named by the
    answer before it, and all keep the user and the date bound.
    There are at most as many as passes of the loop. *)
Theorem GetRecentDays_requests
        (fuel : nat) (t : Timetracking) (u : harvest.User) (amount : Z)
        (from : GoTime.Time) (actualDays : bool) o calls :
  user t = Some u ->
  GetRecentDays fuel t amount from actualDays = (o, calls) ->
  follows_pages (harvest_ t) 0
    {| harvest.UserID := Some (harvest.ID u); harvest.To := Some from;
       harvest.Page := None |} calls
  /\ Forall (fun call =>
               exists q, call = CallGetTimeEntries q
                         /\ harvest.UserID q = Some (harvest.ID u)
                         /\ harvest.To q = Some from) calls
  /\ (length calls <= fuel)%nat.
Proof.
  intros Huser Hrun.
  assert (Hchain : follows_pages (harvest_ t) 0
                     {| harvest.UserID := Some (harvest.ID u);
                        harvest.To := Some from; harvest.Page := None |}
                     calls
                   /\ (length calls <= fuel)%nat).
  { unfold GetRecentDays, User in Hrun. rewrite Huser in Hrun.
    destruct (amount <? 0);
      [injection Hrun as _ <-; simpl; split; [exact I | lia] |].
    destruct (if actualDays
              then placeholder_loop fuel fuel (conf t) amount from ∅ []
              else Returns (∅, [])) as [[counter entries] | p |];
      try (injection Hrun as _ <-; simpl; split; [exact I | lia]).
    exact (pages_loop_requests _ _ _ _ _ _ _ _ _ _ Hrun). }
  destruct Hchain as [Hchain Hlen].
  split; [exact Hchain |]. split; [| exact Hlen].
  exact (follows_pages_same_filter _ _ _ _ Hchain).
Qed.

(** Two days are asked of the source with two pages. *)
Lemma GetRecentDays_requests_witness :
  follows_pages (harvest_ Sample.tracker_paged) 0
    {| harvest.UserID := Some 3; harvest.To := Some Sample.saturday;
       harvest.Page := None |}
    [Sample.first_request; Sample.second_request]
  /\ Forall (fun call =>
               exists q, call = CallGetTimeEntries q
                         /\ harvest.UserID q = Some 3
                         /\ harvest.To q = Some Sample.saturday)
       [Sample.first_request; Sample.second_request]
  /\ (length [Sample.first_request; Sample.second_request] <= 20)%nat.
Proof.
  apply (GetRecentDays_requests 20 Sample.tracker_paged {| harvest.ID := 3 |}
           2 Sample.saturday false
           (Returns (2, [Sample.entry Sample.saturday;
                         Sample.entry (Sample.saturday - 2)], None))).
  - reflexivity.
  - vm_compute. reflexivity.
Defined.

Section CountedDays.

Variable sf : nat.
Variable c : Config.
Variable amount : Z.

Lemma keys_snoc (es : harvest.TimeEntries) (e : harvest.TimeEntry)
      (key : string) :
  entry_key sf c e = Some key -> (list_to_set (omap (entry_key sf c) (es ++ [e])) : gset string)
  = {[key]} ∪ (list_to_set (omap (entry_key sf c) es) : gset string).
Proof.
  intros Hkey. rewrite omap_app. simpl. rewrite Hkey.
  rewrite list_to_set_app_L. simpl. set_solver.
Qed.

(** The entries loop keeps the counter equal to the set of keys of
    the collection, and every entry of the collection keyed. *)
Lemma range_entries_keys_inv (es : harvest.TimeEntries)
      (counter : gset string) (entries : harvest.TimeEntries)
      exit counter' entries' :
  range_entries sf c amount es counter entries
  = Some (exit, counter', entries') ->
  counter = (list_to_set (omap (entry_key sf c) entries) : gset string) ->
  Forall (fun e0 => is_Some (entry_key sf c e0)) entries ->
  counter' = (list_to_set (omap (entry_key sf c) entries') : gset string)
  /\ Forall (fun e0 => is_Some (entry_key sf c e0)) entries'.
Proof.
  revert counter entries.
  induction es as [| e es IH]; intros counter entries Hr Hinv Hkeyed;
    simpl in Hr.
  - injection Hr as _ <- <-. split; assumption.
  - destruct (harvest.SpentDate e) as [sd |] eqn:Hsd;
      [| exact (IH _ _ Hr Hinv Hkeyed)].
    destruct (ShiftToWorkday sf c (harvest.Time sd)) as [d |] eqn:Hs;
      [| discriminate Hr].
    assert (Hkey : entry_key sf c e = Some (Format d dateFormat))
      by (unfold entry_key; rewrite Hsd, Hs; reflexivity).
    destruct (negb (bool_decide (Format d dateFormat ∈ counter))
              && (Z.of_nat (size counter) =? amount)).
    + injection Hr as _ <- <-. split; assumption.
    + apply (IH _ _ Hr).
      * rewrite (keys_snoc _ _ _ Hkey), Hinv. reflexivity.
      * apply Forall_app. split; [exact Hkeyed |].
        constructor; [rewrite Hkey; eauto | constructor].
Qed.

Lemma placeholder_loop_keys_inv (fuel : nat) (d : Z) (counter : gset string)
      (entries : harvest.TimeEntries) counter' entries' :
  placeholder_loop sf fuel c amount d counter entries
  = Returns (counter', entries') ->
  counter = (list_to_set (omap (entry_key sf c) entries) : gset string) ->
  Forall (fun e0 => is_Some (entry_key sf c e0)) entries ->
  counter' = (list_to_set (omap (entry_key sf c) entries') : gset string)
  /\ Forall (fun e0 => is_Some (entry_key sf c e0)) entries'.
Proof.
  revert d counter entries.
  induction fuel as [| fuel IH]; intros d counter entries Hp Hinv Hkeyed;
    simpl in Hp; [discriminate Hp |].
  destruct (ShiftToWorkday sf c d) as [d' |] eqn:Hs; [| discriminate Hp].
  assert (Hkey : entry_key sf c (placeholder d') = Some (Format d' dateFormat)).
  { unfold entry_key. simpl. destruct sf as [| sf']; [discriminate Hs |].
    rewrite (ShiftToWorkday_fixpoint c _ sf' _ _ Hs). reflexivity. }
  assert (Hinv' : {[Format d' dateFormat]} ∪ counter
                  = (list_to_set (omap (entry_key sf c) (entries ++ [placeholder d'])) : gset string))
    by (rewrite (keys_snoc _ _ _ Hkey), Hinv; reflexivity).
  assert (Hkeyed' : Forall (fun e0 => is_Some (entry_key sf c e0)) (entries ++ [placeholder d'])).
  { apply Forall_app. split; [exact Hkeyed |].
    constructor; [rewrite Hkey; eauto | constructor]. }
  destruct (Z.of_nat (size ({[Format d' dateFormat]} ∪ counter)) =? amount).
  - injection Hp as <- <-. split; assumption.
  - exact (IH _ _ _ Hp Hinv' Hkeyed').
Qed.

End CountedDays.

Lemma pages_loop_keys_inv (sf fuel : nat) (t : Timetracking) (amount : Z)
      (n : nat) (params : harvest.TimeEntriesParams)
      (counter : gset string) (entries : harvest.TimeEntries)
      cnt es calls :
  pages_loop sf fuel t amount n params counter entries
  = (Returns (cnt, es, None), calls) ->
  counter = list_to_set (omap (entry_key sf (conf t)) entries) ->
  Forall (fun e => is_Some (entry_key sf (conf t) e)) entries ->
  cnt = Z.of_nat (size (list_to_set (omap (entry_key sf (conf t)) es)
                        : gset string))
  /\ Forall (fun e => is_Some (entry_key sf (conf t) e)) es.
Proof.
  revert n params counter entries calls.
  induction fuel as [| fuel IH];
    intros n params counter entries calls Hp Hinv Hkeyed;
    simpl in Hp; [discriminate Hp |].
  destruct (harvest.GetTimeEntries (harvest_ t) n params)
    as [[res |] [e |]]; try discriminate Hp.
  destruct (range_entries sf (conf t) amount (harvest.Entries res)
              counter entries) as [[[exit counter'] entries'] |] eqn:Hr;
    [| discriminate Hp].
  destruct (range_entries_keys_inv _ _ _ _ _ _ _ _ _ Hr Hinv Hkeyed)
    as [Hinv' Hkeyed'].
  destruct exit.
  - destruct (harvest.NextPage res) as [page |].
    + destruct (pages_loop sf fuel t amount (S n)
                  (set_Page params (Some page)) counter' entries')
        as [o calls'] eqn:Hrec.
      injection Hp as -> _. exact (IH _ _ _ _ _ Hrec Hinv' Hkeyed').
    + injection Hp as <- <- _. rewrite Hinv'. split; [reflexivity | assumption].
  - injection Hp as <- <- _. rewrite Hinv'. split; [reflexivity | assumption].
Qed.

(** What a run of [GetRecentDays] without error returns: dated entries
    only, and as count the number of their different shifted days. *)
Lemma GetRecentDays_keys_inv
      (fuel : nat) (t : Timetracking) (amount : Z) (from : GoTime.Time)
      (actualDays : bool) cnt es calls :
  GetRecentDays fuel t amount from actualDays
  = (Returns (cnt, es, None), calls) ->
  cnt = Z.of_nat (size (list_to_set (omap (entry_key fuel (conf t)) es)
                        : gset string))
  /\ Forall (fun e => is_Some (entry_key fuel (conf t) e)) es.
Proof.
  unfold GetRecentDays. destruct (User t) as [u |]; [| discriminate].
  destruct (amount <? 0); [discriminate |].
  destruct actualDays.
  - destruct (placeholder_loop fuel fuel (conf t) amount from ∅ [])
      as [[counter entries] | p |] eqn:Hp; try discriminate.
    destruct (placeholder_loop_keys_inv _ _ _ _ _ _ _ _ _ Hp eq_refl
                (Forall_nil_2 _)) as [Hinv Hkeyed].
    intros Hrun. exact (pages_loop_keys_inv _ _ _ _ _ _ _ _ _ _ _ Hrun Hinv Hkeyed).
  - intros Hrun.
    exact (pages_loop_keys_inv _ _ _ _ _ _ _ _ _ _ _ Hrun eq_refl
             (Forall_nil_2 _)).
Qed.

(** X (meaning of the count).  When [GetRecentDays] returns without
    error, every entry of the collection has a date, and the count is
    the number of different days the dates of the collection shift
    to. *)
Theorem GetRecentDays_count_distinct_days
        (fuel : nat) (t : Timetracking) (amount : Z) (from : GoTime.Time)
        (actualDays : bool) cnt es calls :
  GetRecentDays fuel t amount from actualDays
  = (Returns (cnt, es, None), calls) ->
  cnt = Z.of_nat (size (list_to_set (omap (entry_key fuel (conf t)) es)
                        : gset string))
  /\ Forall (fun e => is_Some (entry_key fuel (conf t) e)) es.
Proof. exact (GetRecentDays_keys_inv _ _ _ _ _ _ _ _).
Qed.

(** The Saturday entry and the Friday entry count as one day. *)
Lemma GetRecentDays_count_distinct_days_witness :
  1 = Z.of_nat (size (list_to_set
                        (omap (entry_key 20 (conf Sample.tracker))
                           [Sample.entry Sample.saturday;
                            Sample.entry (Sample.saturday - 1)])
                      : gset string))
  /\ Forall (fun e => is_Some (entry_key 20 (conf Sample.tracker) e))
       [Sample.entry Sample.saturday; Sample.entry (Sample.saturday - 1)].
Proof.
  apply (GetRecentDays_count_distinct_days 20 Sample.tracker 1
           Sample.saturday false 1 _ [Sample.first_request]).
  vm_compute. reflexivity.
Defined.

(** X (amount 0).  With [amount] 0 a return of [GetRecentDays] is a
    return without [actualDays], and it carries the count 0 and an
    empty collection. *)
Theorem GetRecentDays_zero_amount_empty
        (fuel : nat) (t : Timetracking) (from : GoTime.Time)
        (actualDays : bool) cnt es err calls :
  GetRecentDays fuel t 0 from actualDays = (Returns (cnt, es, err), calls) ->
  actualDays = false /\ cnt = 0 /\ es = [].
Proof.
  unfold GetRecentDays. destruct (User t) as [u |]; [| discriminate].
  simpl. destruct actualDays.
  - rewrite placeholder_loop_never by lia. discriminate.
  - intros Hrun. split; [reflexivity |].
    destruct err as [e |].
    + apply pages_loop_error in Hrun as (Hc & He & _). split; assumption.
    + assert (Hle : cnt <= 0).
      { eapply pages_loop_count; [| | exact Hrun];
          [lia | rewrite size_empty; lia]. }
      destruct (pages_loop_keys_inv _ _ _ _ _ _ _ _ _ _ _ Hrun eq_refl
                  (Forall_nil_2 _)) as [Hcnt Hkeyed].
      assert (Hz : size (list_to_set (omap (entry_key fuel (conf t)) es)
                         : gset string) = 0%nat) by lia.
      split; [lia |].
      apply size_empty_inv in Hz.
      destruct es as [| e es]; [reflexivity |]. exfalso.
      apply Forall_cons in Hkeyed as [[key Hkey] _].
      simpl in Hz. rewrite Hkey in Hz.
      apply (not_elem_of_empty (C:=gset string) key).
      rewrite <- Hz. simpl. set_solver.
Qed.

Lemma GetRecentDays_zero_amount_empty_witness :
  false = false /\ 0 = 0 /\ @nil harvest.TimeEntry = [].
Proof.
  apply (GetRecentDays_zero_amount_empty 20 Sample.tracker Sample.saturday
           false 0 [] None [Sample.first_request]).
  vm_compute. reflexivity.
Defined.

(** ** The skeleton of workdays *)




(** ** The key function of the grouping *)

(** X (key function twice).  The key function of
    [GetRecentDaysGrouped] accepts exactly the entries with a date;
    an entry it has accepted is accepted again unchanged, with the
    same key: entries that were shifted once group as before. *)
Theorem group_key_idempotent
        (sf : nat) (c : Config) (groupBy : string) (groupFormat : Layout)
        (e e' : harvest.TimeEntry) (key : string) (ok : bool) :
  group_key sf c groupBy groupFormat e = Some (e', (key, ok)) ->
  (ok = true <-> harvest.SpentDate e <> None)
  /\ (ok = false -> e' = e /\ key = EmptyString)
  /\ (ok = true ->
      group_key sf c groupBy groupFormat e' = Some (e', (key, true))).
Proof.
  unfold group_key.
  destruct (harvest.SpentDate e) as [sd |] eqn:Hsd.
  - destruct (ShiftToWorkday sf c (harvest.Time sd)) as [d |] eqn:Hs;
      [| discriminate].
    assert (Hagain : ShiftToWorkday sf c d = Some d).
    { destruct sf as [| sf']; [discriminate Hs |].
      exact (ShiftToWorkday_fixpoint c _ sf' _ _ Hs). }
    intros Hkey.
    assert (Hok : ok = true /\ e' = set_SpentDate e (Some (harvest.mkDate d))).
    { destruct (String.eqb groupBy groupByWeek).
      - destruct (ISOWeek d). injection Hkey as <- _ <-. split; reflexivity.
      - injection Hkey as <- _ <-. split; reflexivity. }
    destruct Hok as [-> ->].
    split; [split; [congruence | reflexivity] |].
    split; [discriminate |]. intros _.
    unfold set_SpentDate.
    cbn [harvest.SpentDate harvest.Time harvest.Hours harvest.Other].
    rewrite Hagain.
    destruct (String.eqb groupBy groupByWeek).
    + destruct (ISOWeek d). injection Hkey as <-. reflexivity.
    + injection Hkey as <-. reflexivity.
  - intros Hkey. injection Hkey as <- <- <-.
    split; [split; [discriminate | congruence] |].
    split; [split; reflexivity | discriminate].
Qed.

Lemma group_key_idempotent_witness :
  (true = true <-> harvest.SpentDate (Sample.entry Sample.saturday) <> None)
  /\ (true = false ->
      Sample.entry (Sample.saturday - 1) = Sample.entry Sample.saturday
      /\ "2018-11-23"%string = EmptyString)
  /\ (true = true ->
      group_key 14 Sample.validated groupByDay dateFormat
        (Sample.entry (Sample.saturday - 1))
      = Some (Sample.entry (Sample.saturday - 1), ("2018-11-23"%string, true))).
Proof.
  apply (group_key_idempotent 14 Sample.validated groupByDay dateFormat
           (Sample.entry Sample.saturday)).
  vm_compute. reflexivity.
Defined.

Section GroupKeys.

Local Ltac div_lia := Z.div_mod_to_equations; lia.

Lemma digit_not_bar (n : Z) : digit n <> "|"%char.
Proof.
  unfold digit. destruct n as [| p | p]; try discriminate.
  do 4 (destruct p; try discriminate).
Qed.

Lemma digits_w_no_bar (w : nat) (u : Z) : "|"%char ∉ digits_w w u.
Proof.
  revert u. induction w as [| w IH]; intros u; simpl.
  - apply not_elem_of_nil.
  - intros Hin. apply elem_of_app in Hin as [Hin | Hin].
    + exact (IH _ Hin).
    + apply list_elem_of_singleton in Hin. symmetry in Hin.
      exact (digit_not_bar _ Hin).
Qed.

Lemma appendInt_no_bar (x : Z) (w : nat) : "|"%char ∉ appendInt x w.
Proof.
  unfold appendInt. intros Hin. apply elem_of_app in Hin as [Hin | Hin].
  - destruct (x <? 0).
    + apply list_elem_of_singleton in Hin. discriminate Hin.
    + inversion Hin.
  - exact (digits_w_no_bar _ _ Hin).
Qed.

(** Two texts cut at the first separator agree part by part. *)
Lemma app_sep_inj (x : ascii) (l1 l2 r1 r2 : list ascii) :
  x ∉ l1 -> x ∉ l2 -> l1 ++ x :: r1 = l2 ++ x :: r2 ->
  l1 = l2 /\ r1 = r2.
Proof.
  revert l2. induction l1 as [| a l1 IH]; intros l2 H1 H2 Heq.
  - destruct l2 as [| b l2]; simpl in Heq.
    + injection Heq as <-. split; reflexivity.
    + injection Heq as <- _. exfalso. apply H2. left.
  - destruct l2 as [| b l2]; simpl in Heq.
    + injection Heq as -> _. exfalso. apply H1. left.
    + injection Heq as <- Heq.
      destruct (IH l2) as [-> ->]; try exact Heq.
      * intros Hin. apply H1. right. exact Hin.
      * intros Hin. apply H2. right. exact Hin.
      * split; reflexivity.
Qed.

Lemma Sprintf_d_bar_d_inj (y1 w1 y2 w2 : Z) :
  Sprintf_d_bar_d y1 w1 = Sprintf_d_bar_d y2 w2 -> y1 = y2 /\ w1 = w2.
Proof.
  unfold Sprintf_d_bar_d. intros Heq. apply string_of_list_ascii_inj in Heq.
  simpl in Heq. apply app_sep_inj in Heq as [Hy Hw];
    try apply appendInt_no_bar.
  apply appendInt_inj in Hy, Hw. split; assumption.
Qed.

(** The ISO week of a date is read off the Thursday of its week, and
    the Thursdays are the day numbers divisible by seven. *)
Lemma ISOWeek_thursday (d : Z) :
  ISOWeek d
  = (let t := 7 * ((d + 3) / 7) in
     let '(year, _, _) := Date_of t in
     (year, (t - days_from_civil year 1 1) / 7 + 1)).
Proof.
  unfold ISOWeek, Weekday_of.
  pose proof (Z.mod_pos_bound (d + 4) 7 eq_refl) as Hb.
  assert (Hcases : (d + 4) mod 7 = 0 \/ (d + 4) mod 7 = 1
                   \/ (d + 4) mod 7 = 2 \/ (d + 4) mod 7 = 3
                   \/ (d + 4) mod 7 = 4 \/ (d + 4) mod 7 = 5
                   \/ (d + 4) mod 7 = 6) by lia.
  cbv zeta.
  destruct Hcases as [H | [H | [H | [H | [H | [H | H]]]]]];
    rewrite H; simpl weekday_of_Z; simpl weekday_to_Z; simpl Z.sub;
    simpl Z.eqb; cbv iota;
    match goal with
    | |- context [Date_of (d + ?k)] =>
        replace (d + k) with (7 * ((d + 3) / 7)) by div_lia
    end; reflexivity.
Qed.

Lemma ISOWeek_eq_iff (d1 d2 : Z) :
  ISOWeek d1 = ISOWeek d2 <-> (d1 + 3) / 7 = (d2 + 3) / 7.
Proof.
  rewrite !ISOWeek_thursday. cbv zeta. split.
  - destruct (Date_of (7 * ((d1 + 3) / 7))) as [[y1 m1] dd1].
    destruct (Date_of (7 * ((d2 + 3) / 7))) as [[y2 m2] dd2].
    intros Heq. injection Heq as <- Hw.
    generalize dependent (days_from_civil y1 1 1). intros J Hw.
    div_lia.
  - intros ->. reflexivity.
Qed.

Lemma Format_month_inj (d1 d2 : Z) y1 m1 dd1 y2 m2 dd2 :
  Date_of d1 = (y1, m1, dd1) -> Date_of d2 = (y2, m2, dd2) ->
  Format d1 [stdLongYear; literal ["-"%char]; stdZeroMonth]
  = Format d2 [stdLongYear; literal ["-"%char]; stdZeroMonth]
  <-> y1 = y2 /\ m1 = m2.
Proof.
  intros H1 H2. unfold Format, format_chunks. rewrite H1, H2. simpl concat.
  destruct (Date_of_fields _ _ _ _ H1) as (Hm1 & _).
  destruct (Date_of_fields _ _ _ _ H2) as (Hm2 & _).
  rewrite !(appendInt_fixed _ 2) by (simpl; lia). rewrite !app_nil_r.
  split.
  - intros Heq. apply string_of_list_ascii_inj in Heq.
    apply app_inj_2 in Heq as [Hy Htail]; [| reflexivity].
    apply appendInt_inj in Hy. split; [exact Hy |].
    simpl in Htail. injection Htail as H10 H01.
    apply digit_inj in H10, H01; try (apply Z.mod_pos_bound; lia).
    div_lia.
  - intros [-> ->]. reflexivity.
Qed.

Lemma Format_year_inj (d1 d2 : Z) y1 m1 dd1 y2 m2 dd2 :
  Date_of d1 = (y1, m1, dd1) -> Date_of d2 = (y2, m2, dd2) ->
  Format d1 [stdLongYear] = Format d2 [stdLongYear] <-> y1 = y2.
Proof.
  intros H1 H2. unfold Format, format_chunks. rewrite H1, H2. simpl concat.
  rewrite !app_nil_r. split.
  - intros Heq. apply string_of_list_ascii_inj in Heq.
    apply appendInt_inj in Heq. exact Heq.
  - intros ->. reflexivity.
Qed.

(** The key the grouping gives to a shifted date, for each accepted
    granularity, separates exactly the periods. *)
Lemma group_text_period (groupBy : string) (groupFormat : Layout)
      (d1 d2 : Z) :
  groupFormat_of groupBy = Some groupFormat ->
  (if String.eqb groupBy groupByWeek
   then let '(y, w) := ISOWeek d1 in Sprintf_d_bar_d y w
   else Format d1 groupFormat)
  = (if String.eqb groupBy groupByWeek
     then let '(y, w) := ISOWeek d2 in Sprintf_d_bar_d y w
     else Format d2 groupFormat)
  <-> period_of groupBy d1 = period_of groupBy d2.
Proof.
  unfold groupFormat_of, period_of.
  destruct (Date_of d1) as [[y1 m1] dd1] eqn:H1.
  destruct (Date_of d2) as [[y2 m2] dd2] eqn:H2.
  destruct (String.eqb_spec groupBy groupByDay) as [-> | Hnd].
  { change (String.eqb groupByDay groupByWeek) with false.
    change (String.eqb groupByDay groupByMonth) with false.
    change (String.eqb groupByDay groupByYear) with false.
    cbv iota. intros H. injection H as <-. split.
    - intros Heq. apply Format_dateFormat_inj in Heq. subst d2. congruence.
    - intros Heq. rewrite <- H2 in Heq. rewrite <- H1 in Heq.
      apply Date_of_inj in Heq. subst d2. reflexivity. }
  destruct (String.eqb_spec groupBy groupByWeek) as [-> | Hnw].
  { intros _.
    destruct (ISOWeek d1) as [iy1 w1] eqn:Hi1.
    destruct (ISOWeek d2) as [iy2 w2] eqn:Hi2.
    split.
    - intros Heq. apply Sprintf_d_bar_d_inj in Heq as [-> ->].
      rewrite <- Hi2 in Hi1. apply ISOWeek_eq_iff in Hi1. rewrite Hi1.
      reflexivity.
    - intros Heq. injection Heq as Heq. apply ISOWeek_eq_iff in Heq.
      rewrite Heq in Hi1. rewrite Hi1 in Hi2. injection Hi2 as -> ->.
      reflexivity. }
  destruct (String.eqb_spec groupBy groupByMonth) as [-> | Hnm].
  { intros H. injection H as <-.
    rewrite (Format_month_inj _ _ _ _ _ _ _ _ H1 H2).
    split; [intros [-> ->]; reflexivity | intros H; injection H; auto]. }
  destruct (String.eqb_spec groupBy groupByYear) as [-> | Hny];
    [| discriminate].
  intros H. injection H as <-.
  rewrite (Format_year_inj _ _ _ _ _ _ _ _ H1 H2).
  split; [intros ->; reflexivity | intros H; injection H; auto].
Qed.

End GroupKeys.

(** X (group keys).  For each accepted granularity, two entries that
    [GetRecentDaysGrouped] groups get the same key exactly when their
    shifted dates fall in the same period: the same day, the same week
    from Monday to Sunday, the same month of the same year, or the
    same year. *)
Theorem group_key_same_period
        (sf : nat) (c : Config) (groupBy : string) (groupFormat : Layout)
        (e1 e2 e1' e2' : harvest.TimeEntry) (k1 k2 : string) :
  groupFormat_of groupBy = Some groupFormat ->
  group_key sf c groupBy groupFormat e1 = Some (e1', (k1, true)) ->
  group_key sf c groupBy groupFormat e2 = Some (e2', (k2, true)) ->
  exists d1 d2,
    harvest.SpentDate e1' = Some (harvest.mkDate d1)
    /\ harvest.SpentDate e2' = Some (harvest.mkDate d2)
    /\ IsNonWorkday c d1 = false /\ IsNonWorkday c d2 = false
    /\ (k1 = k2 <-> period_of groupBy d1 = period_of groupBy d2).
Proof.
  intros Hfmt. unfold group_key.
  destruct (harvest.SpentDate e1) as [sd1 |]; [| discriminate].
  destruct (ShiftToWorkday sf c (harvest.Time sd1)) as [d1 |] eqn:Hs1;
    [| discriminate].
  destruct (harvest.SpentDate e2) as [sd2 |]; [| discriminate].
  destruct (ShiftToWorkday sf c (harvest.Time sd2)) as [d2 |] eqn:Hs2;
    [| discriminate].
  intros H1 H2. exists d1, d2.
  destruct (ShiftToWorkday_spec _ _ _ _ Hs1) as (_ & Hw1 & _).
  destruct (ShiftToWorkday_spec _ _ _ _ Hs2) as (_ & Hw2 & _).
  pose proof (group_text_period groupBy groupFormat d1 d2 Hfmt) as Hperiod.
  destruct (String.eqb groupBy groupByWeek).
  - destruct (ISOWeek d1) as [y1 w1]. destruct (ISOWeek d2) as [y2 w2].
    injection H1 as <- <-. injection H2 as <- <-.
    repeat split; try assumption; apply Hperiod.
  - injection H1 as <- <-. injection H2 as <- <-.
    repeat split; try assumption; apply Hperiod.
Qed.

(** Grouped by week, the entry of the Saturday (shifted to the Friday)
    and the entry of the Thursday share a key. *)
Lemma group_key_same_period_witness :
  exists d1 d2,
    harvest.SpentDate (Sample.entry (Sample.saturday - 1))
    = Some (harvest.mkDate d1)
    /\ harvest.SpentDate (Sample.entry (Sample.saturday - 2))
       = Some (harvest.mkDate d2)
    /\ IsNonWorkday Sample.validated d1 = false
    /\ IsNonWorkday Sample.validated d2 = false
    /\ ("2018|47"%string = "2018|47"%string
        <-> period_of groupByWeek d1 = period_of groupByWeek d2).
Proof.
  apply (group_key_same_period 14 Sample.validated groupByWeek dateFormat
           (Sample.entry Sample.saturday) (Sample.entry (Sample.saturday - 2))).
  - reflexivity.
  - vm_compute. reflexivity.
  - vm_compute. reflexivity.
Defined.

(** ** The grouped entry point and the lookups *)

(** X (grouped count).  For an accepted granularity
    [GetRecentDaysGrouped] sends the requests of [GetRecentDays] and
    passes its error on with count 0 and a nil grouping; when it
    returns a grouping, its count is the count of the collector, the
    number of different shifted days, whatever the granularity. *)
Theorem GetRecentDaysGrouped_delegates
        (fuel : nat) (t : Timetracking) (amount : Z) (from : GoTime.Time)
        (actualDays : bool) (groupBy : string) (groupFormat : Layout) :
  groupFormat_of groupBy = Some groupFormat ->
  snd (GetRecentDaysGrouped fuel t amount from actualDays groupBy)
  = snd (GetRecentDays fuel t amount from actualDays)
  /\ (forall cnt es e,
        fst (GetRecentDays fuel t amount from actualDays)
        = Returns (cnt, es, Some e) ->
        fst (GetRecentDaysGrouped fuel t amount from actualDays groupBy)
        = Returns (0, None, Some e))
  /\ (forall days group err,
        fst (GetRecentDaysGrouped fuel t amount from actualDays groupBy)
        = Returns (days, Some group, err) ->
        err = None
        /\ exists es,
            fst (GetRecentDays fuel t amount from actualDays)
            = Returns (days, es, None)
            /\ days
               = Z.of_nat (size (list_to_set
                                   (omap (entry_key fuel (conf t)) es)
                                 : gset string))).
Proof.
  intros Hfmt. unfold GetRecentDaysGrouped. rewrite Hfmt.
  destruct (GetRecentDays fuel t amount from actualDays)
    as [[[[cnt es] [e |]] | p |] calls] eqn:Hrun; simpl.
  - split; [reflexivity |]. split.
    + intros cnt' es' e' H. injection H as _ _ <-. reflexivity.
    + intros days group err H. discriminate H.
  - destruct (harvest.Group es (group_key fuel (conf t) groupBy groupFormat) ∅)
      as [g |]; simpl.
    + split; [reflexivity |]. split; [intros cnt' es' e' H; discriminate H |].
      intros days group err H. injection H as <- _ <-.
      split; [reflexivity |]. exists es. split; [reflexivity |].
      exact (proj1 (GetRecentDays_keys_inv _ _ _ _ _ _ _ _ Hrun)).
    + split; [reflexivity |]. split; [intros cnt' es' e' H; discriminate H |].
      intros days group err H. discriminate H.
  - split; [reflexivity |]. split; [intros cnt' es' e' H; discriminate H |].
    intros days group err H. discriminate H.
  - split; [reflexivity |]. split; [intros cnt' es' e' H; discriminate H |].
    intros days group err H. discriminate H.
Qed.

Lemma find_project_id_found (projectName : string)
      (ps : list forecast.Project) :
  find_project_id projectName ps <> 0 ->
  exists proj,
    proj ∈ ps /\ forecast.Name proj = projectName
    /\ forecast.ProjectID proj = find_project_id projectName ps.
Proof.
  rewrite find_project_id_last. unfold last_match_id, matching.
  destruct (last (filter (fun p => forecast.Name p = projectName) ps))
    as [proj |] eqn:Hlast; simpl; [| congruence].
  intros _. exists proj.
  apply last_Some in Hlast as (l' & Hl').
  assert (Hin : proj ∈ filter (fun p => forecast.Name p = projectName) ps).
  { rewrite Hl'. apply elem_of_app. right. left. }
  apply list_elem_of_filter in Hin as [Hname Hin].
  split; [exact Hin |]. split; [exact Hname | reflexivity].
Qed.

(** X (guarded lookup).  [GetAssignmentsByName] sends nothing exactly
    when no forecast user with a non-zero identifier is stored, and
    then returns the no-forecast-user error.  It lists the projects
    first, and every assignment request it sends names a project of
    the listing that carries the given name and a non-zero identifier,
    together with the identifier of the stored forecast user. *)
Theorem GetAssignmentsByName_guarded
        (t : Timetracking) (projectName : string) o calls :
  GetAssignmentsByName t projectName = (o, calls) ->
  (calls = []
   <-> forecastUser t = None
       \/ exists fu, forecastUser t = Some fu /\ forecast.ID fu = 0)
  /\ (calls = [] -> o = Returns ([], Some ErrNoForecastUser))
  /\ (calls = [] \/ exists rest, calls = CallGetProjects :: rest)
  /\ (forall p, CallGetAssignments p ∈ calls ->
        exists fu ps proj,
          forecastUser t = Some fu /\ forecast.ID fu <> 0
          /\ forecast.GetProjects (forecast_ t) = (Some ps, None)
          /\ proj ∈ forecast.ProjectList ps
          /\ forecast.Name proj = projectName
          /\ forecast.ProjectID proj <> 0
          /\ p = {| forecast.ParamProjectID := Some (forecast.ProjectID proj);
                    forecast.ParamPersonID := Some (forecast.ID fu) |}).
Proof.
  unfold GetAssignmentsByName.
  destruct (forecastUser t) as [fu |] eqn:Hfu.
  2:{ intros H. injection H as <- <-.
      split; [split; [auto | reflexivity] |]. split; [reflexivity |].
      split; [left; reflexivity |]. intros p Hin. inversion Hin. }
  destruct (Z.eqb_spec (forecast.ID fu) 0) as [Hz | Hnz].
  { intros H. injection H as <- <-.
    split; [split; [eauto | reflexivity] |]. split; [reflexivity |].
    split; [left; reflexivity |]. intros p Hin. inversion Hin. }
  assert (Hnonempty : forall (call : Call) (rest : list Call),
            (call :: rest = []
             <-> Some fu = None
                 \/ exists fu0, Some fu = Some fu0 /\ forecast.ID fu0 = 0)
            /\ (call :: rest = [] ->
                o = Returns ([], Some ErrNoForecastUser))).
  { intros call rest. split; [split |]; try discriminate.
    intros [H | (fu0 & H & Hz)]; [discriminate H |].
    injection H as <-. contradiction. }
  destruct (forecast.GetProjects (forecast_ t)) as [[ps |] [e |]] eqn:Hps.
  - intros H. injection H as <- <-.
    destruct (Hnonempty CallGetProjects []) as [H1 H2].
    split; [exact H1 |]. split; [exact H2 |]. split; [right; eauto |].
    intros p Hin. apply list_elem_of_singleton in Hin. discriminate Hin.
  - destruct (Z.eqb_spec (find_project_id projectName (forecast.ProjectList ps))
                0) as [Hid | Hid].
    + intros H. injection H as <- <-.
      destruct (Hnonempty CallGetProjects []) as [H1 H2].
      split; [exact H1 |]. split; [exact H2 |]. split; [right; eauto |].
      intros p Hin. apply list_elem_of_singleton in Hin. discriminate Hin.
    + destruct (find_project_id_found _ _ Hid) as (proj & Hin & Hname & Hpid).
      set (params := {| forecast.ParamProjectID :=
                          Some (find_project_id projectName
                                  (forecast.ProjectList ps));
                        forecast.ParamPersonID := Some (forecast.ID fu) |}).
      assert (Hcalls : calls = [CallGetProjects; CallGetAssignments params] ->
                (calls = []
                 <-> Some fu = None
                     \/ exists fu0, Some fu = Some fu0 /\ forecast.ID fu0 = 0)
                /\ (calls = [] -> o = Returns ([], Some ErrNoForecastUser))
                /\ (calls = [] \/ exists rest, calls = CallGetProjects :: rest)
                /\ (forall p, CallGetAssignments p ∈ calls ->
                      exists fu0 ps0 proj0,
                        Some fu = Some fu0 /\ forecast.ID fu0 <> 0
                        /\ (Some ps, @None error) = (Some ps0, None)
                        /\ proj0 ∈ forecast.ProjectList ps0
                        /\ forecast.Name proj0 = projectName
                        /\ forecast.ProjectID proj0 <> 0
                        /\ p = {| forecast.ParamProjectID :=
                                    Some (forecast.ProjectID proj0);
                                  forecast.ParamPersonID :=
                                    Some (forecast.ID fu0) |})).
      { intros ->.
        destruct (Hnonempty CallGetProjects [CallGetAssignments params])
          as [H1 H2].
        split; [exact H1 |]. split; [exact H2 |]. split; [right; eauto |].
        intros p Hp. apply elem_of_cons in Hp as [Hp | Hp];
          [discriminate Hp |].
        apply list_elem_of_singleton in Hp. injection Hp as ->.
        exists fu, ps, proj. rewrite Hpid.
        repeat split; try assumption; reflexivity. }
      fold params.
      destruct (forecast.GetAssignments (forecast_ t) params)
        as [[asg |] [e |]]; intros H; injection H as _ <-;
        apply Hcalls; reflexivity.
  - intros H. injection H as <- <-.
    destruct (Hnonempty CallGetProjects []) as [H1 H2].
    split; [exact H1 |]. split; [exact H2 |]. split; [right; eauto |].
    intros p Hin. apply list_elem_of_singleton in Hin. discriminate Hin.
  - intros H. injection H as <- <-.
    destruct (Hnonempty CallGetProjects []) as [H1 H2].
    split; [exact H1 |]. split; [exact H2 |]. split; [right; eauto |].
    intros p Hin. apply list_elem_of_singleton in Hin. discriminate Hin.
Qed.

(** The lookup of "alpha" in the sample listing. *)
Lemma GetAssignmentsByName_guarded_witness :
  let calls :=
    [CallGetProjects;
     CallGetAssignments {| forecast.ParamProjectID := Some 3;
                           forecast.ParamPersonID := Some 9 |}] in
  (calls = []
   <-> forecastUser Sample.tracker = None
       \/ exists fu, forecastUser Sample.tracker = Some fu
                     /\ forecast.ID fu = 0)
  /\ (calls = [] ->
      Returns ([ {| forecast.AssignmentID := 3 |} ], @None error)
      = Returns ([], Some ErrNoForecastUser))
  /\ (calls = [] \/ exists rest, calls = CallGetProjects :: rest)
  /\ (forall p, CallGetAssignments p ∈ calls ->
        exists fu ps proj,
          forecastUser Sample.tracker = Some fu /\ forecast.ID fu <> 0
          /\ forecast.GetProjects (forecast_ Sample.tracker) = (Some ps, None)
          /\ proj ∈ forecast.ProjectList ps
          /\ forecast.Name proj = "alpha"%string
          /\ forecast.ProjectID proj <> 0
          /\ p = {| forecast.ParamProjectID := Some (forecast.ProjectID proj);
                    forecast.ParamPersonID := Some (forecast.ID fu) |}).
Proof.
  apply (GetAssignmentsByName_guarded Sample.tracker "alpha").
  vm_compute. reflexivity.
Defined.



(** X (caller unknown).  When the lookup of the caller fails,
    [SetForecastUID] with the identifier 0 returns that error, asks
    for no user, and leaves no forecast user behind, whoever was
    stored before; [GetAssignmentsByName] then reports that no
    forecast user is set and sends nothing. *)
Theorem SetForecastUID_me_error (t : Timetracking) o (e : error) :
  forecast.GetMe (forecast_ t) = (o, Some e) ->
  exists t',
    SetForecastUID t 0 = Returns (t', Some e)
    /\ forecastUser t' = None
    /\ conf t' = conf t /\ user t' = user t
    /\ forall projectName,
         GetAssignmentsByName t' projectName
         = (Returns ([], Some ErrNoForecastUser), []).
Proof.
  intros Hme. exists (set_forecastUser t None).
  split.
  - unfold SetForecastUID. simpl forecast_. rewrite Hme. simpl.
    destruct o; reflexivity.
  - repeat split.
Qed.

Lemma SetForecastUID_me_error_witness :
  exists t',
    SetForecastUID Sample.tracker_forecast_down 0
    = Returns (t', Some (ErrRemote 401))
    /\ forecastUser t' = None
    /\ conf t' = conf Sample.tracker_forecast_down
    /\ user t' = user Sample.tracker_forecast_down
    /\ forall projectName,
         GetAssignmentsByName t' projectName
         = (Returns ([], Some ErrNoForecastUser), []).
Proof.
  apply (SetForecastUID_me_error Sample.tracker_forecast_down None
           (ErrRemote 401)).
  reflexivity.
Defined.

(** ** What the collector keeps and what it drops *)

Section StopRule.

Variable sf : nat.
Variable c : Config.
Variable amount : Z.

(** The entries loop keeps a prefix of the dated entries of the page;
    it drops the rest only when the counter is full and the first
    dropped entry belongs to a day not counted. *)
Lemma range_entries_prefix (es : harvest.TimeEntries)
      (counter : gset string) (entries : harvest.TimeEntries)
      exit counter' entries' :
  range_entries sf c amount es counter entries
  = Some (exit, counter', entries') ->
  exists kept dropped,
    entries' = entries ++ kept
    /\ dated es = kept ++ dropped
    /\ (exit = PageDone -> dropped = [])
    /\ (exit = BreakOuter ->
        Z.of_nat (size counter') = amount
        /\ exists e rest key,
            dropped = e :: rest
            /\ entry_key sf c e = Some key /\ key ∉ counter').
Proof.
  revert counter entries.
  induction es as [| e es IH]; intros counter entries Hr; simpl in Hr.
  - injection Hr as <- _ <-. exists [], []. rewrite app_nil_r.
    split; [reflexivity |]. split; [reflexivity |].
    split; [reflexivity | discriminate].
  - assert (Hdated : dated (e :: es)
                     = if decide (is_Some (harvest.SpentDate e))
                       then e :: dated es else dated es)
      by (unfold dated; rewrite filter_cons; reflexivity).
    destruct (harvest.SpentDate e) as [sd |] eqn:Hsd.
    + rewrite decide_True in Hdated by eauto.
      destruct (ShiftToWorkday sf c (harvest.Time sd)) as [d |] eqn:Hs;
        [| discriminate Hr].
      assert (Hkey : entry_key sf c e = Some (Format d dateFormat))
        by (unfold entry_key; rewrite Hsd, Hs; reflexivity).
      destruct (bool_decide_reflect (Format d dateFormat ∈ counter))
        as [Hin | Hout]; simpl in Hr.
      * destruct (IH _ _ Hr) as (kept & dropped & -> & Hd & Hdone & Hbrk).
        exists (e :: kept), dropped. rewrite <- app_assoc.
        split; [reflexivity |]. split; [| split; assumption].
        rewrite Hdated, Hd. reflexivity.
      * destruct (Z.eqb_spec (Z.of_nat (size counter)) amount) as [Hfull | Hnf].
        -- injection Hr as <- <- <-.
           exists [], (e :: dated es). rewrite app_nil_r.
           split; [reflexivity |]. split; [exact Hdated |].
           split; [discriminate |]. intros _. split; [exact Hfull |].
           exists e, (dated es), (Format d dateFormat).
           repeat split; assumption.
        -- destruct (IH _ _ Hr) as (kept & dropped & -> & Hd & Hdone & Hbrk).
           exists (e :: kept), dropped. rewrite <- app_assoc.
           split; [reflexivity |]. split; [| split; assumption].
           rewrite Hdated, Hd. reflexivity.
    + rewrite decide_False in Hdated by (intros [x Hx]; discriminate Hx).
      rewrite Hdated. exact (IH _ _ Hr).
Qed.

End StopRule.

Lemma dated_app (l1 l2 : harvest.TimeEntries) :
  dated (l1 ++ l2) = dated l1 ++ dated l2.
Proof. unfold dated. apply filter_app. Qed.

(** The page loop keeps a prefix of the dated entries it was given in
    answer; see [range_entries_prefix] for the dropped rest. *)
Lemma pages_loop_prefix (sf fuel : nat) (t : Timetracking) (amount : Z)
      (n : nat) (params : harvest.TimeEntriesParams)
      (counter : gset string) (entries : harvest.TimeEntries)
      cnt es calls :
  pages_loop sf fuel t amount n params counter entries
  = (Returns (cnt, es, None), calls) ->
  counter = list_to_set (omap (entry_key sf (conf t)) entries) ->
  exists kept dropped,
    es = entries ++ kept
    /\ dated (answers (harvest_ t) n calls) = kept ++ dropped
    /\ (dropped = []
        \/ cnt = amount
           /\ exists e rest key,
               dropped = e :: rest
               /\ entry_key sf (conf t) e = Some key
               /\ key ∉ (list_to_set (omap (entry_key sf (conf t)) es)
                         : gset string)).
Proof.
  revert n params counter entries calls.
  induction fuel as [| fuel IH];
    intros n params counter entries calls Hp Hinv;
    simpl in Hp; [discriminate Hp |].
  destruct (harvest.GetTimeEntries (harvest_ t) n params)
    as [[res |] [e |]] eqn:Hget; try discriminate Hp.
  destruct (range_entries sf (conf t) amount (harvest.Entries res)
              counter entries) as [[[exit counter'] entries'] |] eqn:Hr;
    [| discriminate Hp].
  assert (Hinv' : counter'
                  = list_to_set (omap (entry_key sf (conf t)) entries')).
  { clear Hp. revert counter entries Hr Hinv.
    induction (harvest.Entries res) as [| e es' IHes];
      intros counter entries Hr Hinv; simpl in Hr.
    - injection Hr as _ <- <-. exact Hinv.
    - destruct (harvest.SpentDate e) as [sd |] eqn:Hsd;
        [| exact (IHes _ _ Hr Hinv)].
      destruct (ShiftToWorkday sf (conf t) (harvest.Time sd)) as [d |] eqn:Hs;
        [| discriminate Hr].
      destruct (negb (bool_decide (Format d dateFormat ∈ counter))
                && (Z.of_nat (size counter) =? amount)).
      + injection Hr as _ <- <-. exact Hinv.
      + apply (IHes _ _ Hr).
        rewrite (keys_snoc sf (conf t) entries e (Format d dateFormat)), Hinv;
          [reflexivity |].
        unfold entry_key. rewrite Hsd, Hs. reflexivity. }
  destruct (range_entries_prefix _ _ _ _ _ _ _ _ _ Hr)
    as (kept & dropped & -> & Hd & Hdone & Hbrk).
  destruct exit.
  - rewrite (Hdone eq_refl), app_nil_r in Hd.
    destruct (harvest.NextPage res) as [page |].
    + destruct (pages_loop sf fuel t amount (S n)
                  (set_Page params (Some page)) counter' (entries ++ kept))
        as [o calls'] eqn:Hrec.
      injection Hp as -> <-.
      destruct (IH _ _ _ _ _ Hrec Hinv')
        as (kept' & dropped' & -> & Hd' & Hrest).
      exists (kept ++ kept'), dropped'. rewrite app_assoc.
      split; [reflexivity |]. split; [| exact Hrest].
      simpl answers. rewrite Hget, dated_app, Hd, Hd', app_assoc.
      reflexivity.
    + injection Hp as _ <- <-. exists kept, []. rewrite app_nil_r.
      split; [reflexivity |]. split; [| left; reflexivity].
      simpl answers. rewrite Hget, app_nil_r. exact Hd.
  - destruct (Hbrk eq_refl) as (Hfull & e & rest & key & -> & Hkey & Hnew).
    injection Hp as <- <- <-. exists kept, (e :: rest).
    split; [reflexivity |]. split.
    + simpl answers. rewrite Hget, app_nil_r. exact Hd.
    + right. split; [exact Hfull |]. exists e, rest, key.
      rewrite <- Hinv'. repeat split; assumption.
Qed.

(** X (prefix).  Without [actualDays], what [GetRecentDays] returns
    without error is a prefix of the dated entries it received, in the
    order received: it drops entries only from the point where the
    count has reached [amount] and an entry of a day not yet counted
    arrives, and it drops everything from there on. *)
Theorem GetRecentDays_prefix
        (fuel : nat) (t : Timetracking) (amount : Z) (from : GoTime.Time)
        cnt es calls :
  GetRecentDays fuel t amount from false = (Returns (cnt, es, None), calls) ->
  exists dropped,
    dated (answers (harvest_ t) 0 calls) = es ++ dropped
    /\ (dropped = []
        \/ cnt = amount
           /\ exists e rest key,
               dropped = e :: rest
               /\ entry_key fuel (conf t) e = Some key
               /\ key ∉ (list_to_set (omap (entry_key fuel (conf t)) es)
                         : gset string)).
Proof.
  unfold GetRecentDays. destruct (User t) as [u |]; [| discriminate].
  destruct (amount <? 0); [discriminate |].
  intros Hrun. apply pages_loop_prefix in Hrun; [| reflexivity].
  destruct Hrun as (kept & dropped & -> & Hd & Hrest).
  exists dropped. split; assumption.
Qed.

(** One day is asked for: the entries of the Saturday and of the
    Friday are kept, the entry of the Thursday is dropped. *)
Lemma GetRecentDays_prefix_witness :
  exists dropped,
    dated (answers (harvest_ Sample.tracker) 0 [Sample.first_request])
    = [Sample.entry Sample.saturday; Sample.entry (Sample.saturday - 1)]
      ++ dropped
    /\ (dropped = []
        \/ 1 = 1
           /\ exists e rest key,
               dropped = e :: rest
               /\ entry_key 20 (conf Sample.tracker) e = Some key
               /\ key ∉ (list_to_set
                           (omap (entry_key 20 (conf Sample.tracker))
                              [Sample.entry Sample.saturday;
                               Sample.entry (Sample.saturday - 1)])
                         : gset string)).
Proof.
  apply (GetRecentDays_prefix 20 Sample.tracker 1 Sample.saturday 1).
  vm_compute. reflexivity.
Defined.

Lemma entry_key_Some (sf : nat) (c : Config) (e : harvest.TimeEntry)
      (key : string) :
  entry_key sf c e = Some key ->
  exists d,
    ShiftToWorkday sf c (entry_day e) = Some d
    /\ key = Format d dateFormat.
Proof.
  unfold entry_key, entry_day.
  destruct (harvest.SpentDate e) as [sd |]; [| discriminate].
  destruct (ShiftToWorkday sf c (harvest.Time sd)) as [d |]; [| discriminate].
  intros H. injection H as <-. eauto.
Qed.

(** X (stop rule).  Without [actualDays], on answers whose dated
    entries come latest first, every entry that [GetRecentDays] drops
    belongs to a day that is not counted: no entry of a counted day is
    lost from the pages received. *)
Theorem GetRecentDays_sorted_drops_older
        (fuel : nat) (t : Timetracking) (amount : Z) (from : GoTime.Time)
        cnt es calls :
  GetRecentDays fuel t amount from false = (Returns (cnt, es, None), calls) ->
  StronglySorted (fun e1 e2 => entry_day e2 <= entry_day e1)
    (dated (answers (harvest_ t) 0 calls)) ->
  exists dropped,
    dated (answers (harvest_ t) 0 calls) = es ++ dropped
    /\ forall e key,
        e ∈ dropped -> entry_key fuel (conf t) e = Some key ->
        key ∉ (list_to_set (omap (entry_key fuel (conf t)) es)
               : gset string).
Proof.
  intros Hrun Hsorted.
  unfold GetRecentDays in Hrun. destruct (User t) as [u |]; [| discriminate].
  destruct (amount <? 0); [discriminate |].
  apply pages_loop_prefix in Hrun; [| reflexivity].
  destruct Hrun as (kept & dropped & -> & Hd & Hrest). simpl.
  exists dropped. split; [exact Hd |].
  destruct Hrest as [-> | (_ & e0 & rest & key0 & -> & Hkey0 & Hnew)].
  { intros e key Hin. inversion Hin. }
  rewrite Hd in Hsorted. simpl in Hnew.
  intros e key He Hkey Hcounted.
  apply elem_of_list_to_set in Hcounted.
  apply list_elem_of_omap in Hcounted as (e' & He' & Hkey').
  apply entry_key_Some in Hkey0 as (d0 & Hs0 & ->).
  apply entry_key_Some in Hkey as (d & Hs & ->).
  destruct (entry_key_Some _ _ _ _ Hkey') as (d' & Hs' & Heq).
  apply Format_dateFormat_inj in Heq. subst d'.
  apply StronglySorted_app in Hsorted as (Hcross & _ & Htail).
  assert (H1 : entry_day e0 <= entry_day e').
  { apply (Hcross e' e0 He'). left. }
  assert (H2 : entry_day e <= entry_day e0).
  { apply elem_of_cons in He as [-> | He]; [lia |].
    apply StronglySorted_cons in Htail as [Hall _].
    rewrite Forall_forall in Hall. exact (Hall _ He). }
  pose proof (ShiftToWorkday_monotone' (conf t) _ _ _ _ _ _ Hs0 Hs' H1) as M1.
  pose proof (ShiftToWorkday_monotone' (conf t) _ _ _ _ _ _ Hs Hs0 H2) as M2.
  assert (d0 = d) by lia. subst d0.
  apply Hnew. apply elem_of_list_to_set.
  apply list_elem_of_omap. exists e'. split; [exact He' | exact Hkey'].
Qed.

(** The sample page comes latest first; the entry of the Thursday is
    dropped and its day is not among the counted days. *)
Lemma GetRecentDays_sorted_drops_older_witness :
  exists dropped,
    dated (answers (harvest_ Sample.tracker) 0 [Sample.first_request])
    = [Sample.entry Sample.saturday; Sample.entry (Sample.saturday - 1)]
      ++ dropped
    /\ forall e key,
        e ∈ dropped -> entry_key 20 (conf Sample.tracker) e = Some key ->
        key ∉ (list_to_set
                 (omap (entry_key 20 (conf Sample.tracker))
                    [Sample.entry Sample.saturday;
                     Sample.entry (Sample.saturday - 1)])
               : gset string).
Proof.
  apply (GetRecentDays_sorted_drops_older 20 Sample.tracker 1
           Sample.saturday 1).
  - vm_compute. reflexivity.
  - vm_compute. repeat (constructor; try (intros H; discriminate H)).
Defined.

(** Grouped by month on the sample source. *)
Lemma GetRecentDaysGrouped_delegates_witness :
  snd (GetRecentDaysGrouped 20 Sample.tracker 1 Sample.saturday false
         groupByMonth)
  = snd (GetRecentDays 20 Sample.tracker 1 Sample.saturday false)
  /\ (forall cnt es e,
        fst (GetRecentDays 20 Sample.tracker 1 Sample.saturday false)
        = Returns (cnt, es, Some e) ->
        fst (GetRecentDaysGrouped 20 Sample.tracker 1 Sample.saturday false
               groupByMonth)
        = Returns (0, None, Some e))
  /\ (forall days group err,
        fst (GetRecentDaysGrouped 20 Sample.tracker 1 Sample.saturday false
               groupByMonth)
        = Returns (days, Some group, err) ->
        err = None
        /\ exists es,
            fst (GetRecentDays 20 Sample.tracker 1 Sample.saturday false)
            = Returns (days, es, None)
            /\ days
               = Z.of_nat (size (list_to_set
                                   (omap (entry_key 20 (conf Sample.tracker))
                                      es)
                                 : gset string))).
Proof.
  apply (GetRecentDaysGrouped_delegates 20 Sample.tracker 1 Sample.saturday
           false groupByMonth
           [stdLongYear; literal ["-"%char]; stdZeroMonth]).
  reflexivity.
Defined.

(** ** The collector returns *)



